(** * A shallow embedding of [main.py]

    The service is a FastAPI application with four route handlers.  Two of
    them carry logic: [test_database] (GET /test) and
    [create_checkout_session] (POST /checkout/create-session).  Both are
    embedded here as computations in a small state-and-exception monad, over
    an explicit description of what lies outside the process: the environment
    variables, the optional [database] module and the [stripe] client. *)

From Stdlib Require Import ZArith String Ascii.
From stdpp Require Import base option list gmap strings.

Local Open Scope string_scope.
Local Open Scope list_scope.
Local Open Scope Z_scope.

(** ** Python values *)

(** The JSON-like values the handlers build.  A [dict] is kept as an
    association list in insertion order, as Python keeps it; a [str] is held
    as the [string] of its UTF-8 bytes, and is measured and sliced by
    character ([str_len], [str_take]), not by byte. *)
#[local] Set Warnings "-register-all".
Inductive pyval : Type :=
| VNone
| VBool (b : bool)
| VInt (z : Z)
| VStr (s : string)
| VList (l : list pyval)
| VDict (d : list (string * pyval)).

#[local] Set Warnings "register-all".

Abbreviation dict := (list (string * pyval)).

(** [d.get(k)]: the value stored under [k], if any. *)
Fixpoint dict_get (k : string) (d : dict) : option pyval :=
  match d with
  | [] => None
  | (k', v) :: d' => if String.eqb k k' then Some v else dict_get k d'
  end.

(** [d[k] = v]: overwrite in place when [k] is a key, append otherwise. *)
Fixpoint dict_set (k : string) (v : pyval) (d : dict) : dict :=
  match d with
  | [] => [(k, v)]
  | (k', v') :: d' =>
      if String.eqb k k' then (k', v) :: d' else (k', v') :: dict_set k v d'
  end.

(** Follow a path of keys through nested dicts. *)
Fixpoint lookup_path (path : list string) (v : pyval) : option pyval :=
  match path with
  | [] => Some v
  | k :: rest =>
      match v with
      | VDict d =>
          match dict_get k d with
          | Some v' => lookup_path rest v'
          | None => None
          end
      | _ => None
      end
  end.

(** ** Truthiness and slicing *)

(** [bool(s)] for a [str]: only the empty string is falsy. *)
Definition truthy_str (s : string) : bool :=
  match s with
  | EmptyString => false
  | String _ _ => true
  end.

(** [bool(x)] for an [Optional[str]]: [None] and [""] are falsy. *)
Definition truthy_opt_str (x : option string) : bool :=
  match x with
  | None => false
  | Some s => truthy_str s
  end.

(** [bool(x)] for an [Optional[dict]]: [None] and [{}] are falsy. *)
Definition truthy_opt_dict (x : option dict) : bool :=
  match x with
  | None => false
  | Some [] => false
  | Some (_ :: _) => true
  end.

(** [a or b] where [a : Optional[str]] and [b : str]. *)
Definition py_or (a : option string) (b : string) : string :=
  match a with
  | Some s => if truthy_str s then s else b
  | None => b
  end.

(** In UTF-8 a byte [10xxxxxx] continues the character begun before it;
    every other byte begins a character. *)
Definition is_continuation (c : ascii) : bool :=
  match c with
  | Ascii _ _ _ _ _ _ false true => true
  | _ => false
  end.

(** [len(s)]: the number of characters of a [str]. *)
Fixpoint str_len (s : string) : nat :=
  match s with
  | EmptyString => O
  | String c s' => if is_continuation c then str_len s' else S (str_len s')
  end.

(** [s[:n]] on a [str]: its first [n] characters, all of it when it has
    fewer. *)
Fixpoint str_take (n : nat) (s : string) : string :=
  match s with
  | EmptyString => EmptyString
  | String c s' =>
      if is_continuation c then String c (str_take n s')
      else match n with
           | O => EmptyString
           | S n' => String c (str_take n' s')
           end
  end.

(** [s] is empty or begins with the first byte of a character. *)
Definition starts_character (s : string) : Prop :=
  match s with
  | EmptyString => True
  | String c _ => is_continuation c = false
  end.

(** ** The process environment *)

Abbreviation environ := (gmap string string).

(** [os.getenv(k)] *)
Definition getenv (env : environ) (k : string) : option string := env !! k.

(** [os.getenv(k, default)] *)
Definition getenv_default (env : environ) (k : string) (d : string) : string :=
  default d (getenv env k).

(** ** Exceptions *)

(** An instance of Python's [Exception] raised by code outside this file (an
    import, the database driver, the payment client).  The handlers inspect
    two things only: whether it is an [ImportError], and its [str]. *)
Record Exn : Type := mkExn {
  is_ImportError : bool;
  exn_str : string
}.

(** [fastapi.HTTPException(status_code=..., detail=...)] *)
Record HTTPException : Type := mkHTTPException {
  status_code : Z;
  detail : string
}.

(** ** State and exceptions *)

(** A computation over a mutable state [S] that either returns a value or
    raises an [E].  A raise keeps the state reached so far: Python does not
    roll mutations back when an exception unwinds. *)
Definition M (S E A : Type) : Type := S -> (E + A) * S.

Section Monad.
Context {S E : Type}.

Definition ret {A} (a : A) : M S E A := fun s => (inr a, s).

Definition raise {A} (e : E) : M S E A := fun s => (inl e, s).

Definition bind {A B} (m : M S E A) (f : A -> M S E B) : M S E B :=
  fun s =>
    match m s with
    | (inr a, s') => f a s'
    | (inl e, s') => (inl e, s')
    end.

Definition get : M S E S := fun s => (inr s, s).

Definition modify (f : S -> S) : M S E unit := fun s => (inr tt, f s).

(** A call into foreign code whose outcome is already known. *)
Definition lift {A} (r : E + A) : M S E A := fun s => (r, s).

(** [try: body  except Exception as e: handler e] where everything [body]
    can raise is an [Exception]. *)
Definition try_except {E' A} (body : M S E' A) (handler : E' -> M S E A)
  : M S E A :=
  fun s =>
    match body s with
    | (inr a, s') => (inr a, s')
    | (inl e, s') => handler e s'
    end.
End Monad.

Declare Scope py_scope.
Delimit Scope py_scope with py.
Notation "x <- m ;; k" := (bind m (fun x => k))
  (at level 100, m at next level, right associativity) : py_scope.
Notation "m ;;; k" := (bind m (fun _ => k))
  (at level 100, right associativity) : py_scope.
Local Open Scope py_scope.

(** [for x in xs: acc = body x acc], stopping at the first raise. *)
Fixpoint for_each {S E A B} (xs : list A) (body : A -> B -> M S E B) (acc : B)
  : M S E B :=
  match xs with
  | [] => ret acc
  | x :: xs' => acc' <- body x acc ;; for_each xs' body acc'
  end.

(** ** What lies outside the process *)

(** The object bound by [from database import db] when it is not [None].
    [db_name] is [None] when [hasattr(db, 'name')] is false, the lookup of
    the attribute being taken not to raise; [list_collection_names] is the
    outcome of the driver call. *)
Record Database : Type := mkDatabase {
  db_name : option pyval;
  list_collection_names : Exn + list string
}.

(** The session object the payment provider returns. *)
Record StripeSession : Type := mkStripeSession {
  url : string
}.

(** Keyword arguments of [stripe.checkout.Session.create]. *)
Record SessionArgs : Type := mkSessionArgs {
  payment_method_types : list string;
  mode : string;
  line_items : list pyval;
  success_url : string;
  cancel_url : string
}.

(** The [stripe] module: [Session_create history key args] is the outcome of
    [stripe.checkout.Session.create] called with the keyword arguments
    [args] while [stripe.api_key] is [key], the calls of [history] having
    been made before it.  The provider is free to answer the same call
    differently each time, with a new session say. *)
Record StripeModule : Type := mkStripeModule {
  Session_create :
    list SessionArgs -> option string -> SessionArgs -> Exn + StripeSession
}.

(** [import_database] is the outcome of [from database import db]: it raises,
    or binds [db] to [None] or to a handle.  [import_stripe] is the outcome
    of [import stripe]. *)
Record World : Type := mkWorld {
  import_database : Exn + option Database;
  import_stripe : Exn + StripeModule
}.

(** ** GET /test *)

(** [response[k] = v] on the handler's local dict. *)
Definition setitem {E} (k : string) (v : pyval) : M dict E unit :=
  modify (dict_set k v).

(** The dict literal [response] starts from. *)
Definition response_init : dict :=
  [ ("backend", VStr "✅ Running");
    ("database", VStr "❌ Not Available");
    ("database_url", VNone);
    ("database_name", VNone);
    ("connection_status", VStr "Not Connected");
    ("collections", VList []) ].

(** The inner [try] of [test_database]: list the collections. *)
Definition probe_collections (db : Database) : M dict Exn unit :=
  collections <- lift (list_collection_names db) ;;
  setitem "collections" (VList (VStr <$> take 10 collections)) ;;;
  setitem "database" (VStr "✅ Connected & Working").

(** The outer [try] of [test_database]. *)
Definition probe_database (w : World) : M dict Exn unit :=
  db <- lift (import_database w) ;;
  match db with
  | Some db =>
      setitem "database" (VStr "✅ Available") ;;;
      setitem "database_url" (VStr "✅ Configured") ;;;
      setitem "database_name"
        (match db_name db with
         | Some n => n
         | None => VStr "✅ Connected"
         end) ;;;
      setitem "connection_status" (VStr "Connected") ;;;
      try_except (probe_collections db)
        (fun e =>
           setitem "database"
             (VStr ("⚠️  Connected but Error: " +:+ str_take 50 (exn_str e))))
  | None => setitem "database" (VStr "⚠️  Available but not initialized")
  end.

(** The body of [test_database], run on the local [response]. *)
Definition test_database_body (w : World) (env : environ)
  : M dict HTTPException pyval :=
  try_except (probe_database w)
    (fun e =>
       if is_ImportError e
       then setitem "database"
              (VStr "❌ Database module not found (run enable-database first)")
       else setitem "database"
              (VStr ("❌ Error: " +:+ str_take 50 (exn_str e)))) ;;;
  setitem "database_url"
    (VStr (if truthy_opt_str (getenv env "DATABASE_URL")
           then "✅ Set" else "❌ Not Set")) ;;;
  setitem "database_name"
    (VStr (if truthy_opt_str (getenv env "DATABASE_NAME")
           then "✅ Set" else "❌ Not Set")) ;;;
  response <- get ;;
  ret (VDict response).

(** [test_database()]: what the handler returns or raises. *)
Definition test_database (w : World) (env : environ) : HTTPException + pyval :=
  fst (test_database_body w env response_init).

(** The status line and JSON body FastAPI sends for a handler's outcome: 200
    with the returned value, or the status of the [HTTPException] with its
    [detail]. *)
Definition http_response (r : HTTPException + pyval) : Z * pyval :=
  match r with
  | inr body => (200, body)
  | inl e => (status_code e, VDict [("detail", VStr (detail e))])
  end.

(** ** POST /checkout/create-session *)

(** The pydantic request models. *)
Module CheckoutItem.
Record t : Type := mk {
  id : string;
  name : string;
  unit_amount : Z;
  quantity : Z;
  image : option string;
  metadata : option dict
}.
End CheckoutItem.

Module CheckoutRequest.
Record t : Type := mk {
  items : list CheckoutItem.t;
  currency : string;
  success_url : option string;
  cancel_url : option string
}.
End CheckoutRequest.

(** An optional field as a Python value. *)
Definition of_opt_str (x : option string) : pyval :=
  match x with
  | Some s => VStr s
  | None => VNone
  end.

Definition of_opt_dict (x : option dict) : pyval :=
  match x with
  | Some d => VDict d
  | None => VNone
  end.

Definition KeyError (k : string) : Exn := mkExn false ("'" +:+ k +:+ "'").

Definition TypeError (msg : string) : Exn := mkExn false msg.

Definition type_name (v : pyval) : string :=
  match v with
  | VNone => "NoneType"
  | VBool _ => "bool"
  | VInt _ => "int"
  | VStr _ => "str"
  | VList _ => "list"
  | VDict _ => "dict"
  end.

(** [d[k1][k2] = v].  The inner dict is shared with [d], so the assignment
    shows in [d]; a missing [k1] is a [KeyError], an entry that is not a dict
    a [TypeError]. *)
Definition nested_setitem (k1 k2 : string) (v : pyval) (d : dict) : Exn + dict :=
  match dict_get k1 d with
  | Some (VDict inner) => inr (dict_set k1 (VDict (dict_set k2 v inner)) d)
  | Some (VList _) =>
      inl (TypeError "list indices must be integers or slices, not str")
  | Some other =>
      inl (TypeError ("'" +:+ type_name other +:+
                      "' object does not support item assignment"))
  | None => inl (KeyError k1)
  end.

(** The state the handler acts on: the module attribute [stripe.api_key] and
    the calls made to the provider, oldest first. *)
Record Stripe : Type := mkStripe {
  api_key : option string;
  calls : list SessionArgs
}.

(** [stripe.api_key = key] *)
Definition set_api_key {E} (key : option string) : M Stripe E unit :=
  modify (fun st => mkStripe key (calls st)).

(** [stripe.checkout.Session.create(...)]: the call is made, and recorded,
    whether or not it raises. *)
Definition checkout_Session_create (stripe : StripeModule) (args : SessionArgs)
  : M Stripe Exn StripeSession :=
  fun st =>
    (Session_create stripe (calls st) (api_key st) args,
     mkStripe (api_key st) (calls st ++ [args])).

(** One turn of the loop over [payload.items]: the dict appended to
    [line_items] for [item]. *)
Definition build_line_item {S} (currency : string) (item : CheckoutItem.t)
  : M S Exn pyval :=
  let price_data : dict :=
    [ ("currency", VStr currency);
      ("product_data", VDict [("name", VStr (CheckoutItem.name item))]);
      ("unit_amount", VInt (CheckoutItem.unit_amount item)) ] in
  price_data <-
    (if truthy_opt_str (CheckoutItem.image item)
     then lift (nested_setitem "product_data" "images"
                  (VList [of_opt_str (CheckoutItem.image item)]) price_data)
     else ret price_data) ;;
  price_data <-
    (if truthy_opt_dict (CheckoutItem.metadata item)
     then lift (nested_setitem "product_data" "metadata"
                  (of_opt_dict (CheckoutItem.metadata item)) price_data)
     else ret price_data) ;;
  ret (VDict [ ("price_data", VDict price_data);
               ("quantity", VInt (CheckoutItem.quantity item)) ]).

(** The [try] block of [create_checkout_session]. *)
Definition checkout_body (w : World) (env : environ)
    (payload : CheckoutRequest.t) (stripe_secret : option string)
  : M Stripe Exn pyval :=
  stripe <- lift (import_stripe w) ;;
  set_api_key stripe_secret ;;;
  line_items <-
    for_each (CheckoutRequest.items payload)
      (fun item line_items =>
         li <- build_line_item (CheckoutRequest.currency payload) item ;;
         ret (line_items ++ [li]))
      [] ;;
  let success_url :=
    py_or (CheckoutRequest.success_url payload)
      (getenv_default env "FRONTEND_URL" "http://localhost:3000"
       +:+ "/?checkout=success") in
  let cancel_url :=
    py_or (CheckoutRequest.cancel_url payload)
      (getenv_default env "FRONTEND_URL" "http://localhost:3000"
       +:+ "/?checkout=cancelled") in
  session <-
    checkout_Session_create stripe
      (mkSessionArgs ["card"] "payment" line_items success_url cancel_url) ;;
  ret (VDict [("url", VStr (url session))]).

(** [create_checkout_session(payload)] *)
Definition create_checkout_session (w : World) (env : environ)
    (payload : CheckoutRequest.t) : M Stripe HTTPException pyval :=
  let stripe_secret := getenv env "STRIPE_SECRET_KEY" in
  if negb (truthy_opt_str stripe_secret)
  then raise (mkHTTPException 400
                "Stripe is not configured. Please set STRIPE_SECRET_KEY in the backend environment.")
  else try_except (checkout_body w env payload stripe_secret)
         (fun e => raise (mkHTTPException 500 (exn_str e))).

(** * Vocabulary of the statements *)

(** A field of the mapping a handler returned. *)
Definition response_field (k : string) (r : HTTPException + pyval)
  : option pyval :=
  match r with
  | inr body => lookup_path [k] body
  | inl _ => None
  end.

(** [True] when the variable is in the environment, whatever its value. *)
Definition is_set (env : environ) (k : string) : bool :=
  match getenv env k with
  | Some _ => true
  | None => false
  end.

(** The frontend base URL the default redirects are derived from. *)
Definition frontend_base (env : environ) : string :=
  match getenv env "FRONTEND_URL" with
  | Some base => base
  | None => "http://localhost:3000"
  end.

(** [li] is what the loop body appends for [item]. *)
Definition built_from (c : string) (item : CheckoutItem.t) (li : pyval) : Prop :=
  fst (build_line_item c item tt) = inr li.

(** The optional entries of [product_data]. *)
Definition images_entry (item : CheckoutItem.t) : dict :=
  if truthy_opt_str (CheckoutItem.image item)
  then [("images", VList [of_opt_str (CheckoutItem.image item)])] else [].

Definition metadata_entry (item : CheckoutItem.t) : dict :=
  if truthy_opt_dict (CheckoutItem.metadata item)
  then [("metadata", of_opt_dict (CheckoutItem.metadata item))] else [].

(** What the line item [li] sent to the provider says about [item]. *)
Definition line_item_carries (c : string) (item : CheckoutItem.t) (li : pyval)
  : Prop :=
  lookup_path ["price_data"; "currency"] li = Some (VStr c)
  ∧ lookup_path ["price_data"; "product_data"; "name"] li
    = Some (VStr (CheckoutItem.name item))
  ∧ lookup_path ["price_data"; "unit_amount"] li
    = Some (VInt (CheckoutItem.unit_amount item))
  ∧ lookup_path ["quantity"] li = Some (VInt (CheckoutItem.quantity item))
  ∧ lookup_path ["price_data"; "product_data"; "images"] li
    = match CheckoutItem.image item with
      | None | Some "" => None
      | Some img => Some (VList [VStr img])
      end
  ∧ lookup_path ["price_data"; "product_data"; "metadata"] li
    = match CheckoutItem.metadata item with
      | None | Some [] => None
      | Some md => Some (VDict md)
      end.

(** * Sample inputs *)

Definition item_widget : CheckoutItem.t :=
  CheckoutItem.mk "1" "Widget" 500 2 None None.

Definition item_poster : CheckoutItem.t :=
  CheckoutItem.mk "2" "Poster" 1200 1
    (Some "https://shop.example/poster.png") (Some [("sku", VStr "P-12")]).

(** An item whose optional fields are given but empty. *)
Definition item_blank : CheckoutItem.t :=
  CheckoutItem.mk "3" "Sticker" 150 4 (Some "") (Some []).

Definition request_two : CheckoutRequest.t :=
  CheckoutRequest.mk [item_widget; item_poster] "usd"
    (Some "https://shop.example/thanks") None.

Definition request_blank : CheckoutRequest.t :=
  CheckoutRequest.mk [item_blank] "usd" (Some "") (Some "").

(** A provider that accepts every session. *)
Definition stripe_accepting : StripeModule :=
  mkStripeModule
    (λ _ _ _, inr (mkStripeSession "https://checkout.example/c/pay/cs_test_1")).

(** A provider that rejects the key. *)
Definition stripe_rejecting : StripeModule :=
  mkStripeModule (λ _ _ _, inl (mkExn false "Invalid API Key provided")).

Definition no_database : Exn := mkExn true "No module named 'database'".

Definition world_accepting : World := mkWorld (inl no_database) (inr stripe_accepting).

Definition world_rejecting : World := mkWorld (inl no_database) (inr stripe_rejecting).

Definition names_12 : list string :=
  ["c01"; "c02"; "c03"; "c04"; "c05"; "c06"; "c07"; "c08"; "c09"; "c10";
   "c11"; "c12"].

Definition db_listing : Database := mkDatabase (Some (VStr "shop")) (inr names_12).

Definition timeout_error : Exn :=
  mkExn false
    "localhost:27017: [Errno 111] Connection refused, Timeout: 30s, Topology Description: unknown".

Definition db_failing : Database := mkDatabase None (inl timeout_error).

Definition world_with (db : Database) : World :=
  mkWorld (inr (Some db)) (inr stripe_accepting).

Definition env_live : environ := {[ "STRIPE_SECRET_KEY" := "sk_test_51" ]}.

Definition env_empty_key : environ := {[ "STRIPE_SECRET_KEY" := "" ]}.

Definition env_url_a : environ := {[ "DATABASE_URL" := "mongodb://a.example:27017" ]}.

Definition env_url_b : environ := {[ "DATABASE_URL" := "mongodb://b.example:27017" ]}.

Definition env_url_blank : environ := {[ "DATABASE_URL" := "" ]}.

Definition stripe_idle : Stripe := mkStripe None [].

(** * The rest of the module *)

(** [read_root()] *)
Definition read_root : pyval :=
  VDict [("message", VStr "Hello from FastAPI Backend!")].

(** [hello()] *)
Definition hello : pyval :=
  VDict [("message", VStr "Hello from the backend API!")].

(** [CheckoutItem(id=..., name=..., unit_amount=..., ...)]: the three
    required fields, and the optional keywords, [None] standing for a keyword
    that is not given.  A missing [quantity] is 1; [image] and [metadata]
    default to [None]. *)
Definition new_CheckoutItem (id name : string) (unit_amount : Z)
    (quantity : option Z) (image : option string) (metadata : option dict)
  : CheckoutItem.t :=
  CheckoutItem.mk id name unit_amount (default 1 quantity) image metadata.

(** [CheckoutRequest(items=..., ...)]: a missing [currency] is ["usd"]. *)
Definition new_CheckoutRequest (items : list CheckoutItem.t)
    (currency : option string) (success_url cancel_url : option string)
  : CheckoutRequest.t :=
  CheckoutRequest.mk items (default "usd" currency) success_url cancel_url.

(** ** Request validation *)

(** How pydantic validates one field of type [str], [int] or [dict].  Which
    inputs of another type it converts (a numeric string for an [int], say)
    depends on its version and mode, which the source does not fix. *)
Record Pydantic : Type := mkPydantic {
  as_str : pyval → option string;
  as_int : pyval → option Z;
  as_dict : pyval → option dict
}.

(** A field declared without default: it must be there and be valid. *)
Definition required {A} (validate : pyval → option A) (k : string) (d : dict)
  : option A :=
  match dict_get k d with
  | Some v => validate v
  | None => None
  end.

(** A field declared with a default: [Some None] when it is not given. *)
Definition given {A} (validate : pyval → option A) (k : string) (d : dict)
  : option (option A) :=
  match dict_get k d with
  | Some v => Some <$> validate v
  | None => Some None
  end.

(** A field declared [Optional[...] = None]: it may be missing or [null]. *)
Definition optional {A} (validate : pyval → option A) (k : string) (d : dict)
  : option (option A) :=
  match dict_get k d with
  | None | Some VNone => Some None
  | Some v => Some <$> validate v
  end.

(** Validation of a JSON value against [CheckoutItem]; [None] when it
    fails. *)
Definition validate_CheckoutItem (P : Pydantic) (v : pyval)
  : option CheckoutItem.t :=
  match v with
  | VDict d =>
      id ← required (as_str P) "id" d;
      name ← required (as_str P) "name" d;
      unit_amount ← required (as_int P) "unit_amount" d;
      quantity ← given (as_int P) "quantity" d;
      image ← optional (as_str P) "image" d;
      metadata ← optional (as_dict P) "metadata" d;
      Some (new_CheckoutItem id name unit_amount quantity image metadata)
  | _ => None
  end.

(** Validation of a JSON body against [CheckoutRequest]. *)
Definition validate_CheckoutRequest (P : Pydantic) (body : pyval)
  : option CheckoutRequest.t :=
  match body with
  | VDict d =>
      items ← match dict_get "items" d with
              | Some (VList l) => mapM (validate_CheckoutItem P) l
              | _ => None
              end;
      currency ← given (as_str P) "currency" d;
      success_url ← optional (as_str P) "success_url" d;
      cancel_url ← optional (as_str P) "cancel_url" d;
      Some (new_CheckoutRequest items currency success_url cancel_url)
  | _ => None
  end.

(** The route [POST /checkout/create-session] on a JSON body: FastAPI
    validates the body against the handler's [payload: CheckoutRequest]
    parameter and answers 422 without calling the handler when that fails;
    otherwise it answers what the handler returns or raises.  The reply is
    the status with the JSON sent, [None] standing for the validation
    report. *)
Definition post_checkout_create_session (P : Pydantic) (w : World)
    (env : environ) (body : pyval) (st : Stripe)
  : (Z * option pyval) * Stripe :=
  match validate_CheckoutRequest P body with
  | Some payload =>
      let '(r, st') := create_checkout_session w env payload st in
      ((fst (http_response r), Some (snd (http_response r))), st')
  | None => ((422, None), st)
  end.

(** * More vocabulary *)

(** [list(d.keys())] *)
Definition dict_keys (d : dict) : list string := d.*1.

(** The dict the loop body appends for [item], written out. *)
Definition line_item_of (c : string) (item : CheckoutItem.t) : pyval :=
  VDict
    [ ("price_data",
       VDict [ ("currency", VStr c);
               ("product_data",
                VDict (("name", VStr (CheckoutItem.name item))
                       :: images_entry item ++ metadata_entry item));
               ("unit_amount", VInt (CheckoutItem.unit_amount item)) ]);
      ("quantity", VInt (CheckoutItem.quantity item)) ].

(** The keyword arguments the handler passes to the provider. *)
Definition session_args (env : environ) (payload : CheckoutRequest.t)
  : SessionArgs :=
  mkSessionArgs ["card"] "payment"
    (line_item_of (CheckoutRequest.currency payload)
       <$> CheckoutRequest.items payload)
    (py_or (CheckoutRequest.success_url payload)
       (getenv_default env "FRONTEND_URL" "http://localhost:3000"
        +:+ "/?checkout=success"))
    (py_or (CheckoutRequest.cancel_url payload)
       (getenv_default env "FRONTEND_URL" "http://localhost:3000"
        +:+ "/?checkout=cancelled")).

(** The keys a line item may have, level by level. *)
Definition line_item_shape (li : pyval) : Prop :=
  ∃ (price_data product_data : dict) (q : Z),
    li = VDict [("price_data", VDict price_data); ("quantity", VInt q)]
    ∧ dict_keys price_data = ["currency"; "product_data"; "unit_amount"]
    ∧ dict_get "product_data" price_data = Some (VDict product_data)
    ∧ dict_keys product_data
      ∈ [ ["name"]; ["name"; "images"]; ["name"; "metadata"];
          ["name"; "images"; "metadata"] ].

(** The same request with every item's [id] replaced. *)
Definition relabel_ids (f : string → string) (payload : CheckoutRequest.t)
  : CheckoutRequest.t :=
  CheckoutRequest.mk
    ((λ item,
        CheckoutItem.mk (f (CheckoutItem.id item)) (CheckoutItem.name item)
          (CheckoutItem.unit_amount item) (CheckoutItem.quantity item)
          (CheckoutItem.image item) (CheckoutItem.metadata item))
       <$> CheckoutRequest.items payload)
    (CheckoutRequest.currency payload)
    (CheckoutRequest.success_url payload)
    (CheckoutRequest.cancel_url payload).

(** * More sample inputs *)

Definition import_broken : Exn :=
  mkExn false
    "MONGODB_URI is not configured: set it in the environment before enabling the database".

Definition world_import_broken : World :=
  mkWorld (inl import_broken) (inr stripe_accepting).

Definition world_db_none : World := mkWorld (inr None) (inr stripe_accepting).

Definition no_stripe : Exn := mkExn true "No module named 'stripe'".

Definition world_no_stripe : World := mkWorld (inl no_database) (inl no_stripe).

Definition request_empty : CheckoutRequest.t :=
  CheckoutRequest.mk [] "usd" None None.

Definition request_both_urls : CheckoutRequest.t :=
  CheckoutRequest.mk [item_widget] "eur"
    (Some "https://shop.example/thanks") (Some "https://shop.example/cart").

Definition env_front_a : environ :=
  {[ "STRIPE_SECRET_KEY" := "sk_test_51"; "FRONTEND_URL" := "https://a.example" ]}.

Definition env_front_b : environ :=
  {[ "STRIPE_SECRET_KEY" := "sk_test_51"; "FRONTEND_URL" := "https://b.example" ]}.

(** A provider that opens a new session at every call. *)
Definition stripe_fresh : StripeModule :=
  mkStripeModule
    (λ history _ _,
       inr (mkStripeSession
              match history with
              | [] => "https://checkout.example/c/pay/cs_test_1"
              | _ :: _ => "https://checkout.example/c/pay/cs_test_2"
              end)).

Definition world_fresh : World := mkWorld (inl no_database) (inr stripe_fresh).

(** Fields are accepted in their declared JSON type only. *)
Definition pydantic_strict : Pydantic :=
  mkPydantic
    (λ v, match v with VStr s => Some s | _ => None end)
    (λ v, match v with VInt z => Some z | _ => None end)
    (λ v, match v with VDict d => Some d | _ => None end).

(** A body whose one item lacks [name] and [unit_amount]. *)
Definition body_missing_fields : pyval :=
  VDict [("items", VList [VDict [("id", VStr "1")]])].

Definition body_widget : pyval :=
  VDict [("items",
          VList [VDict [ ("id", VStr "1"); ("name", VStr "Widget");
                         ("unit_amount", VInt 500); ("quantity", VInt 2) ]])].

(** An error text of sixty two-byte characters. *)
Definition accented_error : Exn :=
  mkExn false
    "éééééééééééééééééééééééééééééééééééééééééééééééééééééééééééé".

Definition db_accented : Database := mkDatabase None (inl accented_error).

(** An error text of fewer than 50 characters and more than 50 bytes. *)
Definition short_accented_error : Exn :=
  mkExn false "Délai dépassé: la base de données n'a pas répondu".

Definition world_import_accented : World :=
  mkWorld (inl short_accented_error) (inr stripe_accepting).

Definition stripe_stale : Stripe :=
  mkStripe (Some "sk_test_old")
    [mkSessionArgs ["card"] "payment" [] "https://old.example/ok"
       "https://old.example/no"].

Arguments getenv : simpl never.

(** * Properties *)

(** ** Dictionaries and slices *)

Lemma dict_get_set_eq (k : string) (v : pyval) (d : dict) :
  dict_get k (dict_set k v d) = Some v.
Proof.
  induction d as [|[k' v'] d IH]; simpl.
  - by rewrite String.eqb_refl.
  - destruct (String.eqb k k') eqn:E; simpl; rewrite E; [done | apply IH].
Qed.

Lemma dict_get_set_ne (k k' : string) (v : pyval) (d : dict) :
  k ≠ k' → dict_get k' (dict_set k v d) = dict_get k' d.
Proof.
  intros Hne. induction d as [|[k0 v0] d IH]; simpl.
  - destruct (String.eqb k' k) eqn:E; [|done].
    apply String.eqb_eq in E. congruence.
  - destruct (String.eqb k k0) eqn:E; simpl.
    + apply String.eqb_eq in E. subst k0.
      destruct (String.eqb k' k) eqn:E'; [|done].
      apply String.eqb_eq in E'. congruence.
    + destruct (String.eqb k' k0); [done | apply IH].
Qed.

Lemma str_take_length (n : nat) (s : string) :
  str_len (str_take n s) = Nat.min n (str_len s).
Proof.
  revert n. induction s as [|c s IH]; intros n; simpl.
  - by destruct n.
  - destruct (is_continuation c) eqn:Hc; simpl.
    + by rewrite Hc.
    + destruct n as [|n]; simpl; [done|]. by rewrite Hc, IH.
Qed.

Lemma str_take_prefix (n : nat) (s : string) :
  String.prefix (str_take n s) s = true.
Proof.
  revert n. induction s as [|c s IH]; intros n; simpl; [done|].
  destruct (is_continuation c); [|destruct n as [|n]; [done|]]; simpl.
  all: destruct (ascii_dec c c); [apply IH | congruence].
Qed.

(** The slice ends where a character ends: what is left of [s] begins a
    character. *)
Lemma str_take_rest (n : nat) (s : string) :
  ∃ rest : string, s = str_take n s +:+ rest ∧ starts_character rest.
Proof.
  revert n. induction s as [|c s IH]; intros n; simpl.
  - by exists "".
  - destruct (is_continuation c) eqn:Hc.
    + destruct (IH n) as (rest & Hs & Hrest). exists rest.
      split; [exact (f_equal (String c) Hs) | done].
    + destruct n as [|n].
      * exists (String c s). by split.
      * destruct (IH n) as (rest & Hs & Hrest). exists rest.
        split; [exact (f_equal (String c) Hs) | done].
Qed.

(** A [str] of at most [n] characters is not cut. *)
Lemma str_take_all (n : nat) (s : string) :
  (str_len s ≤ n)%nat → str_take n s = s.
Proof.
  revert n. induction s as [|c s IH]; intros n; simpl; [done|].
  destruct (is_continuation c).
  - intros Hn. by rewrite IH.
  - destruct n as [|n]; [lia|]. intros Hn. rewrite IH; [done|lia].
Qed.

(** On ASCII text characters are bytes. *)
Lemma str_len_ascii (s : string) :
  (∀ c, In c (list_ascii_of_string s) → is_continuation c = false) →
  str_len s = String.length s.
Proof.
  induction s as [|c s IH]; simpl; [done|]. intros Hs.
  rewrite (Hs c) by auto. rewrite IH; [done|]. intros c' Hc'. apply Hs. auto.
Qed.

(** ** GET /test *)

(** Split on what the handler finds outside: the import raises, [db] is
    [None], or there is a handle whose probe raises or returns. *)
Ltac world_cases w :=
  destruct w as [[?e|[[?nm [?e|?names]]|]] ?imp].

Ltac run_test_database :=
  cbv [test_database test_database_body probe_database probe_collections
       try_except bind ret lift get setitem modify response_init
       import_database list_collection_names db_name];
  repeat match goal with
         | |- context [is_ImportError ?e] => destruct (is_ImportError e)
         | |- context [truthy_opt_str ?x] => destruct (truthy_opt_str x)
         end;
  cbn.

(** C5.  GET /test never raises and always answers 200: whatever the import
    of the database module and the collection probe do (the module is
    missing or fails to load, [db] is [None], the probe returns, the probe
    raises), the handler returns a mapping whose [backend], [database],
    [database_url], [database_name] and [connection_status] fields are
    strings and whose [collections] field is a list. *)
Theorem test_database_never_raises (w : World) (env : environ) :
  ∃ d : dict,
    test_database w env = inr (VDict d)
    ∧ fst (http_response (test_database w env)) = 200
    ∧ Forall (λ k, ∃ s, dict_get k d = Some (VStr s))
        ["backend"; "database"; "database_url"; "database_name";
         "connection_status"]
    ∧ ∃ l, dict_get "collections" d = Some (VList l).
Proof.
  world_cases w; run_test_database.
  all: eexists; split; [reflexivity|]; split; [reflexivity|]; split.
  all: try (repeat (constructor; [eexists; reflexivity|]); constructor).
  all: eexists; reflexivity.
Qed.

(** C6.  When the probe returns a list of collection names, the
    [collections] field holds the first 10 names of that list, in order, and
    so at most 10 entries. *)
Theorem test_database_collections_first_10
    (w : World) (env : environ) (db : Database) (names : list string)
    (Hdb : import_database w = inr (Some db))
    (Hnames : list_collection_names db = inr names) :
  ∃ l : list pyval,
    response_field "collections" (test_database w env) = Some (VList l)
    ∧ l = VStr <$> take 10 names
    ∧ (length l ≤ 10)%nat
    ∧ length l = Nat.min 10 (length names).
Proof.
  exists (VStr <$> take 10 names).
  rewrite length_fmap, length_take.
  split; [|split; [done|split; [lia|done]]].
  destruct w as [idb istripe], db as [nm lcn]. simpl in Hdb, Hnames. subst.
  run_test_database; reflexivity.
Qed.

(** C7.  When the handle is there and the probe raises [e], the [database]
    field is the fixed warning followed by [str(e)[:50]]: the first 50
    characters of [str(e)], all of it when it has no more, cut where a
    character ends; and [connection_status] still says ["Connected"]. *)
Theorem test_database_probe_error
    (w : World) (env : environ) (db : Database) (e : Exn)
    (Hdb : import_database w = inr (Some db))
    (Hprobe : list_collection_names db = inl e) :
  response_field "database" (test_database w env)
    = Some (VStr ("⚠️  Connected but Error: " +:+ str_take 50 (exn_str e)))
  ∧ (str_len (str_take 50 (exn_str e)) ≤ 50)%nat
  ∧ str_len (str_take 50 (exn_str e)) = Nat.min 50 (str_len (exn_str e))
  ∧ String.prefix (str_take 50 (exn_str e)) (exn_str e) = true
  ∧ (∃ rest : string,
       exn_str e = str_take 50 (exn_str e) +:+ rest ∧ starts_character rest)
  ∧ ((str_len (exn_str e) ≤ 50)%nat → str_take 50 (exn_str e) = exn_str e)
  ∧ response_field "connection_status" (test_database w env)
    = Some (VStr "Connected").
Proof.
  rewrite str_take_length, str_take_prefix.
  split; [|split; [lia|split; [done|split; [done|]]]].
  2: split; [apply str_take_rest|split; [apply str_take_all|]].
  all: destruct w as [idb istripe], db as [nm lcn]; simpl in Hdb, Hprobe; subst.
  all: run_test_database; reflexivity.
Qed.

(** C9, as amended.  The [database_url] and [database_name] fields are each
    one of two fixed labels, chosen by whether the variable holds a non-empty
    value: two runs in which [DATABASE_URL] and [DATABASE_NAME] agree on that
    report the same two fields, whatever the values and whatever the
    database does. *)
Theorem test_database_env_fields
    (w1 w2 : World) (env1 env2 : environ)
    (Hurl : truthy_opt_str (getenv env1 "DATABASE_URL")
            = truthy_opt_str (getenv env2 "DATABASE_URL"))
    (Hname : truthy_opt_str (getenv env1 "DATABASE_NAME")
             = truthy_opt_str (getenv env2 "DATABASE_NAME")) :
  response_field "database_url" (test_database w1 env1)
    = response_field "database_url" (test_database w2 env2)
  ∧ response_field "database_name" (test_database w1 env1)
    = response_field "database_name" (test_database w2 env2)
  ∧ response_field "database_url" (test_database w1 env1)
    = Some (VStr (if truthy_opt_str (getenv env1 "DATABASE_URL")
                  then "✅ Set" else "❌ Not Set"))
  ∧ response_field "database_name" (test_database w1 env1)
    = Some (VStr (if truthy_opt_str (getenv env1 "DATABASE_NAME")
                  then "✅ Set" else "❌ Not Set")).
Proof.
  assert (Hfields : ∀ w env,
    response_field "database_url" (test_database w env)
      = Some (VStr (if truthy_opt_str (getenv env "DATABASE_URL")
                    then "✅ Set" else "❌ Not Set"))
    ∧ response_field "database_name" (test_database w env)
      = Some (VStr (if truthy_opt_str (getenv env "DATABASE_NAME")
                    then "✅ Set" else "❌ Not Set"))).
  { intros w env. world_cases w; run_test_database; split; reflexivity. }
  destruct (Hfields w1 env1) as [-> ->], (Hfields w2 env2) as [-> ->].
  rewrite Hurl, Hname. done.
Qed.

(** ** POST /checkout/create-session *)

(** The loop body never raises, and what it builds does not depend on the
    state it runs in. *)
Lemma build_line_item_value {S} (st : S) (c : string) (item : CheckoutItem.t) :
  build_line_item c item st
  = (inr (VDict
            [ ("price_data",
               VDict [ ("currency", VStr c);
                       ("product_data",
                        VDict (("name", VStr (CheckoutItem.name item))
                               :: images_entry item ++ metadata_entry item));
                       ("unit_amount", VInt (CheckoutItem.unit_amount item)) ]);
              ("quantity", VInt (CheckoutItem.quantity item)) ]),
     st).
Proof.
  unfold build_line_item, images_entry, metadata_entry.
  destruct (truthy_opt_str _), (truthy_opt_dict _); reflexivity.
Qed.

Lemma build_line_item_run {S} (st : S) (c : string) (item : CheckoutItem.t) :
  build_line_item c item st = (fst (build_line_item c item tt), st).
Proof. by rewrite !build_line_item_value. Qed.

Lemma for_each_line_items (c : string) (items : list CheckoutItem.t)
    (acc : list pyval) (st : Stripe) :
  ∃ lis : list pyval,
    for_each items
      (λ item line_items,
         li <- build_line_item c item ;; ret (line_items ++ [li]))
      acc st
    = (inr (acc ++ lis), st)
    ∧ Forall2 (built_from c) items lis.
Proof.
  revert acc. induction items as [|item items IH]; intros acc; simpl.
  - exists []. by rewrite app_nil_r.
  - unfold bind at 1 2. rewrite build_line_item_run.
    destruct (fst (build_line_item c item tt)) as [e|li] eqn:Hli.
    { by rewrite build_line_item_value in Hli. }
    unfold ret at 1. destruct (IH (acc ++ [li])) as (lis & -> & Hlis).
    exists (li :: lis). rewrite <- app_assoc. split; [done|].
    by constructor.
Qed.

(** What a request does once the credential check has passed and [stripe]
    has been imported: one call to the provider, whose outcome decides the
    handler's. *)
Lemma create_checkout_session_run (w : World) (env : environ)
    (payload : CheckoutRequest.t) (st : Stripe) (stripe : StripeModule) :
  truthy_opt_str (getenv env "STRIPE_SECRET_KEY") = true →
  import_stripe w = inr stripe →
  ∃ lis : list pyval,
    Forall2 (built_from (CheckoutRequest.currency payload))
      (CheckoutRequest.items payload) lis
    ∧ let args :=
        mkSessionArgs ["card"] "payment" lis
          (py_or (CheckoutRequest.success_url payload)
             (getenv_default env "FRONTEND_URL" "http://localhost:3000"
              +:+ "/?checkout=success"))
          (py_or (CheckoutRequest.cancel_url payload)
             (getenv_default env "FRONTEND_URL" "http://localhost:3000"
              +:+ "/?checkout=cancelled")) in
      create_checkout_session w env payload st
      = (match Session_create stripe (calls st)
                      (getenv env "STRIPE_SECRET_KEY") args with
         | inl e => inl (mkHTTPException 500 (exn_str e))
         | inr session => inr (VDict [("url", VStr (url session))])
         end,
         mkStripe (getenv env "STRIPE_SECRET_KEY") (calls st ++ [args])).
Proof.
  intros Hkey Himp.
  destruct (for_each_line_items (CheckoutRequest.currency payload)
              (CheckoutRequest.items payload) []
              (mkStripe (getenv env "STRIPE_SECRET_KEY") (calls st)))
    as (lis & Hloop & Hlis).
  exists lis. split; [done|]. simpl.
  unfold create_checkout_session. rewrite Hkey. simpl.
  unfold try_except, checkout_body, bind, lift, set_api_key, modify.
  unfold bind in Hloop. rewrite Himp, Hloop. simpl.
  destruct (Session_create stripe _ _ _); reflexivity.
Qed.

Lemma built_from_carries (c : string) (item : CheckoutItem.t) (li : pyval) :
  built_from c item li → line_item_carries c item li.
Proof.
  unfold built_from. rewrite build_line_item_value. simpl.
  intros [= <-]. unfold images_entry, metadata_entry.
  destruct item as [i n a q [[|ch img]|] [[|kv md]|]]; repeat split.
Qed.

(** What the loop body appends is the dict written out in [line_item_of]. *)
Lemma built_from_eq (c : string) (item : CheckoutItem.t) (li : pyval) :
  built_from c item li → li = line_item_of c item.
Proof.
  unfold built_from. rewrite build_line_item_value. simpl. by intros [= <-].
Qed.

Lemma built_from_line_item_of (c : string) (items : list CheckoutItem.t)
    (lis : list pyval) :
  Forall2 (built_from c) items lis → lis = line_item_of c <$> items.
Proof.
  induction 1 as [|item li items lis Hli _ IH]; [done|].
  apply built_from_eq in Hli. by rewrite Hli, IH.
Qed.

(** C1.  With the credential configured and the provider client importable,
    the handler makes one call to the provider; its [line_items] has as many
    entries as [payload.items], and the entry at each position is the one
    built from the item at that position: it is the dict [line_item_of]
    writes out for that item, carrying that item's name, unit amount,
    quantity, image and metadata. *)
Theorem checkout_line_items_in_order (w : World) (env : environ)
    (payload : CheckoutRequest.t) (st : Stripe) (stripe : StripeModule)
    (Hkey : truthy_opt_str (getenv env "STRIPE_SECRET_KEY") = true)
    (Himp : import_stripe w = inr stripe) :
  ∃ args : SessionArgs,
    calls (snd (create_checkout_session w env payload st)) = calls st ++ [args]
    ∧ length (line_items args) = length (CheckoutRequest.items payload)
    ∧ line_items args
      = line_item_of (CheckoutRequest.currency payload)
          <$> CheckoutRequest.items payload
    ∧ ∀ i : nat,
        match CheckoutRequest.items payload !! i with
        | Some item =>
            ∃ li, line_items args !! i = Some li
                  ∧ built_from (CheckoutRequest.currency payload) item li
                  ∧ li = line_item_of (CheckoutRequest.currency payload) item
                  ∧ line_item_carries (CheckoutRequest.currency payload)
                      item li
        | None => line_items args !! i = None
        end.
Proof.
  destruct (create_checkout_session_run w env payload st stripe Hkey Himp)
    as (lis & Hlis & Hrun).
  simpl in Hrun. rewrite Hrun. eexists. split; [reflexivity|]. simpl.
  split; [symmetry; eapply Forall2_length, Hlis|].
  split; [by apply built_from_line_item_of|].
  intros i. destruct (CheckoutRequest.items payload !! i) as [item|] eqn:Hi.
  - destruct (Forall2_lookup_l _ _ _ _ _ Hlis Hi) as (li & Hli & Hb).
    exists li. split; [done|]. split; [done|].
    split; [by apply built_from_eq | by apply built_from_carries].
  - apply lookup_ge_None. apply lookup_ge_None in Hi.
    by rewrite <- (Forall2_length _ _ _ Hlis).
Qed.

(** C2, as amended.  Without [STRIPE_SECRET_KEY] in the environment the
    handler raises [HTTPException(400)] with the configuration message for
    every payload it is called with, and nothing has been done to the
    provider: no call, [stripe.api_key] untouched.  On the route, every body
    that validates as a [CheckoutRequest] is answered 400 with that
    [detail]; a body that does not is answered 422 before the handler runs.
    Either way the provider is not called. *)
Theorem checkout_unconfigured (P : Pydantic) (w : World) (env : environ)
    (payload : CheckoutRequest.t) (body : pyval) (st : Stripe)
    (Hkey : getenv env "STRIPE_SECRET_KEY" = None) :
  create_checkout_session w env payload st
  = (inl (mkHTTPException 400
            "Stripe is not configured. Please set STRIPE_SECRET_KEY in the backend environment."),
     st)
  ∧ http_response (fst (create_checkout_session w env payload st))
    = (400,
       VDict [("detail",
               VStr "Stripe is not configured. Please set STRIPE_SECRET_KEY in the backend environment.")])
  ∧ calls (snd (create_checkout_session w env payload st)) = calls st
  ∧ post_checkout_create_session P w env body st
    = (match validate_CheckoutRequest P body with
       | Some _ =>
           (400,
            Some (VDict [("detail",
                          VStr "Stripe is not configured. Please set STRIPE_SECRET_KEY in the backend environment.")]))
       | None => (422, None)
       end,
       st).
Proof.
  assert (Hrun : ∀ p, create_checkout_session w env p st
                      = (inl (mkHTTPException 400
                                "Stripe is not configured. Please set STRIPE_SECRET_KEY in the backend environment."),
                         st)).
  { intros p. unfold create_checkout_session. by rewrite Hkey. }
  rewrite Hrun. repeat split.
  unfold post_checkout_create_session.
  destruct (validate_CheckoutRequest P body) as [p|]; [|done].
  by rewrite Hrun.
Qed.

(** C3, as amended.  The URL passed to the provider is the caller's when it
    is given and not empty; when it is omitted or empty it is the frontend
    base URL ([FRONTEND_URL], or [http://localhost:3000] when that is unset)
    followed by [/?checkout=success], respectively [/?checkout=cancelled]. *)
Theorem checkout_redirect_urls (w : World) (env : environ)
    (payload : CheckoutRequest.t) (st : Stripe) (stripe : StripeModule)
    (Hkey : truthy_opt_str (getenv env "STRIPE_SECRET_KEY") = true)
    (Himp : import_stripe w = inr stripe) :
  ∃ args : SessionArgs,
    calls (snd (create_checkout_session w env payload st)) = calls st ++ [args]
    ∧ success_url args
      = match CheckoutRequest.success_url payload with
        | None | Some "" => frontend_base env +:+ "/?checkout=success"
        | Some u => u
        end
    ∧ cancel_url args
      = match CheckoutRequest.cancel_url payload with
        | None | Some "" => frontend_base env +:+ "/?checkout=cancelled"
        | Some u => u
        end.
Proof.
  destruct (create_checkout_session_run w env payload st stripe Hkey Himp)
    as (lis & Hlis & Hrun).
  simpl in Hrun. rewrite Hrun. eexists. split; [reflexivity|]. simpl.
  unfold getenv_default, frontend_base.
  destruct (getenv env "FRONTEND_URL");
    destruct (CheckoutRequest.success_url payload) as [[|]|];
    destruct (CheckoutRequest.cancel_url payload) as [[|]|]; done.
Qed.

(** C4.  Once the credential check has passed, whatever the [try] block
    raises is turned into [HTTPException(500)] whose [detail] is the [str]
    of the exception, whichever kind it is; this is so when [import stripe]
    fails and when the provider call fails.  When nothing is raised the
    handler returns the dict whose only entry is [url], the URL of the
    session the provider returned. *)
Theorem checkout_errors_become_500 (w : World) (env : environ)
    (payload : CheckoutRequest.t) (st : Stripe)
    (Hkey : truthy_opt_str (getenv env "STRIPE_SECRET_KEY") = true) :
  let r := create_checkout_session w env payload st in
  match checkout_body w env payload (getenv env "STRIPE_SECRET_KEY") st with
  | (inl e, st') =>
      r = (inl (mkHTTPException 500 (exn_str e)), st')
      ∧ http_response (fst r) = (500, VDict [("detail", VStr (exn_str e))])
  | (inr body, st') =>
      r = (inr body, st') ∧ http_response (fst r) = (200, body)
  end
  ∧ match import_stripe w with
    | inl e => fst r = inl (mkHTTPException 500 (exn_str e))
    | inr stripe =>
        ∃ args : SessionArgs,
          calls (snd r) = calls st ++ [args]
          ∧ match Session_create stripe (calls st)
                      (getenv env "STRIPE_SECRET_KEY") args with
            | inl e => fst r = inl (mkHTTPException 500 (exn_str e))
            | inr session => fst r = inr (VDict [("url", VStr (url session))])
            end
    end.
Proof.
  intros r. split.
  - subst r. unfold create_checkout_session. rewrite Hkey. simpl.
    unfold try_except.
    destruct (checkout_body w env payload _ st) as [[e|body] st']; done.
  - destruct (import_stripe w) as [e|stripe] eqn:Himp.
    + subst r. unfold create_checkout_session. rewrite Hkey. simpl.
      unfold try_except, checkout_body, bind, lift. by rewrite Himp.
    + destruct (create_checkout_session_run w env payload st stripe Hkey Himp)
        as (lis & Hlis & Hrun).
      simpl in Hrun. subst r. rewrite Hrun. eexists. split; [reflexivity|].
      simpl. by destruct (Session_create stripe _ _ _).
Qed.

(** C8, as amended.  Each line item sent to the provider carries the request
    currency, the item's name and unit amount, and the item's quantity;
    [images] is there, as the one-element list of the image, exactly when the
    image is given and not empty, and [metadata] is there, as the item's
    mapping, exactly when the mapping is given and not empty. *)
Theorem checkout_price_data (w : World) (env : environ)
    (payload : CheckoutRequest.t) (st : Stripe) (stripe : StripeModule)
    (Hkey : truthy_opt_str (getenv env "STRIPE_SECRET_KEY") = true)
    (Himp : import_stripe w = inr stripe) :
  ∃ args : SessionArgs,
    calls (snd (create_checkout_session w env payload st)) = calls st ++ [args]
    ∧ Forall2 (line_item_carries (CheckoutRequest.currency payload))
        (CheckoutRequest.items payload) (line_items args).
Proof.
  destruct (create_checkout_session_run w env payload st stripe Hkey Himp)
    as (lis & Hlis & Hrun).
  simpl in Hrun. rewrite Hrun. eexists. split; [reflexivity|]. simpl.
  eapply Forall2_impl; [exact Hlis|]. apply built_from_carries.
Qed.

(** C10.  [STRIPE_SECRET_KEY] set to the empty string is treated as not set:
    the handler does what it does when the variable is removed, which is to
    raise [HTTPException(400)] with the configuration message. *)
Theorem checkout_empty_key (w : World) (env : environ)
    (payload : CheckoutRequest.t) (st : Stripe)
    (Hkey : getenv env "STRIPE_SECRET_KEY" = Some "") :
  create_checkout_session w env payload st
  = create_checkout_session w (delete "STRIPE_SECRET_KEY" env) payload st
  ∧ create_checkout_session w env payload st
    = (inl (mkHTTPException 400
              "Stripe is not configured. Please set STRIPE_SECRET_KEY in the backend environment."),
       st).
Proof.
  unfold create_checkout_session. rewrite Hkey.
  unfold getenv at 1. rewrite lookup_delete_eq. done.
Qed.

(** * The theorems at sample inputs *)

(** C1 at a request of two items served by an accepting provider. *)
Lemma checkout_line_items_in_order_witness :
  truthy_opt_str (getenv env_live "STRIPE_SECRET_KEY") = true
  ∧ import_stripe world_accepting = inr stripe_accepting
  ∧ ∃ args : SessionArgs,
      calls (snd (create_checkout_session world_accepting env_live
                    request_two stripe_idle))
      = calls stripe_idle ++ [args]
      ∧ length (line_items args) = length (CheckoutRequest.items request_two)
      ∧ line_items args
        = line_item_of (CheckoutRequest.currency request_two)
            <$> CheckoutRequest.items request_two
      ∧ ∀ i : nat,
          match CheckoutRequest.items request_two !! i with
          | Some item =>
              ∃ li, line_items args !! i = Some li
                    ∧ built_from (CheckoutRequest.currency request_two) item li
                    ∧ li = line_item_of (CheckoutRequest.currency request_two)
                             item
                    ∧ line_item_carries (CheckoutRequest.currency request_two)
                        item li
          | None => line_items args !! i = None
          end.
Proof.
  split; [vm_compute; reflexivity|]. split; [reflexivity|].
  apply (checkout_line_items_in_order world_accepting env_live request_two
           stripe_idle stripe_accepting).
  - vm_compute; reflexivity.
  - reflexivity.
Defined.

(** The two line items of that request, as sent: the widget first, the
    poster second. *)
Example checkout_line_items_sent :
  line_items <$>
    calls (snd (create_checkout_session world_accepting env_live request_two
                  stripe_idle))
  = [[ VDict
         [ ("price_data",
            VDict [ ("currency", VStr "usd");
                    ("product_data", VDict [("name", VStr "Widget")]);
                    ("unit_amount", VInt 500) ]);
           ("quantity", VInt 2) ];
       VDict
         [ ("price_data",
            VDict [ ("currency", VStr "usd");
                    ("product_data",
                     VDict [ ("name", VStr "Poster");
                             ("images",
                              VList [VStr "https://shop.example/poster.png"]);
                             ("metadata", VDict [("sku", VStr "P-12")]) ]);
                    ("unit_amount", VInt 1200) ]);
           ("quantity", VInt 1) ] ]].
Proof. vm_compute. reflexivity. Qed.

(** A body whose item lacks required fields fails validation, whatever the
    field validators accept. *)
Lemma body_missing_fields_invalid (P : Pydantic) :
  validate_CheckoutRequest P body_missing_fields = None.
Proof.
  unfold validate_CheckoutRequest, body_missing_fields. simpl.
  unfold validate_CheckoutItem, required. simpl.
  by destruct (as_str P (VStr "1")).
Qed.

(** C2 in the empty environment, at a body that validates. *)
Lemma checkout_unconfigured_witness :
  getenv ∅ "STRIPE_SECRET_KEY" = None
  ∧ create_checkout_session world_accepting ∅ request_two stripe_idle
    = (inl (mkHTTPException 400
              "Stripe is not configured. Please set STRIPE_SECRET_KEY in the backend environment."),
       stripe_idle)
  ∧ http_response
      (fst (create_checkout_session world_accepting ∅ request_two stripe_idle))
    = (400,
       VDict [("detail",
               VStr "Stripe is not configured. Please set STRIPE_SECRET_KEY in the backend environment.")])
  ∧ calls (snd (create_checkout_session world_accepting ∅ request_two
                  stripe_idle))
    = calls stripe_idle
  ∧ post_checkout_create_session pydantic_strict world_accepting ∅ body_widget
      stripe_idle
    = (match validate_CheckoutRequest pydantic_strict body_widget with
       | Some _ =>
           (400,
            Some (VDict [("detail",
                          VStr "Stripe is not configured. Please set STRIPE_SECRET_KEY in the backend environment.")]))
       | None => (422, None)
       end,
       stripe_idle).
Proof.
  split; [vm_compute; reflexivity|].
  apply (checkout_unconfigured pydantic_strict world_accepting ∅ request_two
           body_widget stripe_idle).
  vm_compute; reflexivity.
Defined.

(** With the key unset, a body whose item has neither [name] nor
    [unit_amount] is answered 422, not 400. *)
Lemma checkout_unconfigured_counterexample :
  getenv ∅ "STRIPE_SECRET_KEY" = None
  ∧ post_checkout_create_session pydantic_strict world_accepting ∅
      body_missing_fields stripe_idle
    = ((422, None), stripe_idle)
  ∧ fst (fst (post_checkout_create_session pydantic_strict world_accepting ∅
                body_missing_fields stripe_idle))
    ≠ 400.
Proof.
  split; [vm_compute; reflexivity|]. split; [vm_compute; reflexivity|].
  vm_compute. discriminate.
Qed.

(** The same body that validates is answered 400 there. *)
Example checkout_unconfigured_valid_body :
  validate_CheckoutRequest pydantic_strict body_widget
  = Some (CheckoutRequest.mk [item_widget] "usd" None None)
  ∧ fst (fst (post_checkout_create_session pydantic_strict world_accepting ∅
                body_widget stripe_idle))
    = 400.
Proof. split; vm_compute; reflexivity. Qed.

(** C3 at a request that gives a success URL and omits the cancel URL. *)
Lemma checkout_redirect_urls_witness :
  truthy_opt_str (getenv env_live "STRIPE_SECRET_KEY") = true
  ∧ import_stripe world_accepting = inr stripe_accepting
  ∧ ∃ args : SessionArgs,
      calls (snd (create_checkout_session world_accepting env_live
                    request_two stripe_idle))
      = calls stripe_idle ++ [args]
      ∧ success_url args
        = match CheckoutRequest.success_url request_two with
          | None | Some "" => frontend_base env_live +:+ "/?checkout=success"
          | Some u => u
          end
      ∧ cancel_url args
        = match CheckoutRequest.cancel_url request_two with
          | None | Some "" => frontend_base env_live +:+ "/?checkout=cancelled"
          | Some u => u
          end.
Proof.
  split; [vm_compute; reflexivity|]. split; [reflexivity|].
  apply (checkout_redirect_urls world_accepting env_live request_two
           stripe_idle stripe_accepting).
  - vm_compute; reflexivity.
  - reflexivity.
Defined.

(** The request whose redirect URLs are given as empty strings is sent with
    the derived defaults, not with the URLs given. *)
Lemma checkout_redirect_urls_counterexample :
  CheckoutRequest.success_url request_blank = Some ""
  ∧ CheckoutRequest.cancel_url request_blank = Some ""
  ∧ success_url <$>
      calls (snd (create_checkout_session world_accepting env_live
                    request_blank stripe_idle))
    = ["http://localhost:3000/?checkout=success"]
  ∧ cancel_url <$>
      calls (snd (create_checkout_session world_accepting env_live
                    request_blank stripe_idle))
    = ["http://localhost:3000/?checkout=cancelled"]
  ∧ success_url <$>
      calls (snd (create_checkout_session world_accepting env_live
                    request_blank stripe_idle))
    ≠ [""].
Proof.
  split; [reflexivity|]. split; [reflexivity|].
  split; [vm_compute; reflexivity|]. split; [vm_compute; reflexivity|].
  vm_compute. discriminate.
Qed.

(** C4 at a provider that rejects the key. *)
Lemma checkout_errors_become_500_witness :
  truthy_opt_str (getenv env_live "STRIPE_SECRET_KEY") = true
  ∧ let r := create_checkout_session world_rejecting env_live request_two
               stripe_idle in
    match checkout_body world_rejecting env_live request_two
            (getenv env_live "STRIPE_SECRET_KEY") stripe_idle with
    | (inl e, st') =>
        r = (inl (mkHTTPException 500 (exn_str e)), st')
        ∧ http_response (fst r) = (500, VDict [("detail", VStr (exn_str e))])
    | (inr body, st') =>
        r = (inr body, st') ∧ http_response (fst r) = (200, body)
    end
    ∧ match import_stripe world_rejecting with
      | inl e => fst r = inl (mkHTTPException 500 (exn_str e))
      | inr stripe =>
          ∃ args : SessionArgs,
            calls (snd r) = calls stripe_idle ++ [args]
            ∧ match Session_create stripe (calls stripe_idle)
                      (getenv env_live "STRIPE_SECRET_KEY") args with
              | inl e => fst r = inl (mkHTTPException 500 (exn_str e))
              | inr session =>
                  fst r = inr (VDict [("url", VStr (url session))])
              end
      end.
Proof.
  split; [vm_compute; reflexivity|].
  apply (checkout_errors_become_500 world_rejecting env_live request_two
           stripe_idle).
  vm_compute; reflexivity.
Defined.

(** The same request, evaluated: a rejected key is answered 500 with the
    provider's message, an accepted one 200 with the session URL alone. *)
Example checkout_rejected_then_accepted :
  http_response
    (fst (create_checkout_session world_rejecting env_live request_two
            stripe_idle))
  = (500, VDict [("detail", VStr "Invalid API Key provided")])
  ∧ http_response
      (fst (create_checkout_session world_accepting env_live request_two
              stripe_idle))
    = (200, VDict [("url", VStr "https://checkout.example/c/pay/cs_test_1")]).
Proof. split; vm_compute; reflexivity. Qed.

(** C6 at a database with twelve collections: the first ten are reported. *)
Lemma test_database_collections_first_10_witness :
  import_database (world_with db_listing) = inr (Some db_listing)
  ∧ list_collection_names db_listing = inr names_12
  ∧ ∃ l : list pyval,
      response_field "collections" (test_database (world_with db_listing) ∅)
      = Some (VList l)
      ∧ l = VStr <$> take 10 names_12
      ∧ (length l ≤ 10)%nat
      ∧ length l = Nat.min 10 (length names_12).
Proof.
  split; [reflexivity|]. split; [reflexivity|].
  apply (test_database_collections_first_10 (world_with db_listing) ∅
           db_listing names_12); reflexivity.
Defined.

(** C7 at a driver error of more than 50 characters. *)
Lemma test_database_probe_error_witness :
  import_database (world_with db_failing) = inr (Some db_failing)
  ∧ list_collection_names db_failing = inl timeout_error
  ∧ response_field "database" (test_database (world_with db_failing) ∅)
    = Some (VStr ("⚠️  Connected but Error: "
                  +:+ str_take 50 (exn_str timeout_error)))
  ∧ (str_len (str_take 50 (exn_str timeout_error)) ≤ 50)%nat
  ∧ str_len (str_take 50 (exn_str timeout_error))
    = Nat.min 50 (str_len (exn_str timeout_error))
  ∧ String.prefix (str_take 50 (exn_str timeout_error))
      (exn_str timeout_error) = true
  ∧ (∃ rest : string,
       exn_str timeout_error = str_take 50 (exn_str timeout_error) +:+ rest
       ∧ starts_character rest)
  ∧ ((str_len (exn_str timeout_error) ≤ 50)%nat
     → str_take 50 (exn_str timeout_error) = exn_str timeout_error)
  ∧ response_field "connection_status"
      (test_database (world_with db_failing) ∅)
    = Some (VStr "Connected").
Proof.
  split; [reflexivity|]. split; [reflexivity|].
  apply (test_database_probe_error (world_with db_failing) ∅ db_failing
           timeout_error); reflexivity.
Defined.

(** The message of that error is cut after its 50th character. *)
Example test_database_probe_error_cut :
  str_len (exn_str timeout_error) = 92%nat
  ∧ response_field "database" (test_database (world_with db_failing) ∅)
    = Some (VStr "⚠️  Connected but Error: localhost:27017: [Errno 111] Connection refused, T").
Proof. split; vm_compute; reflexivity. Qed.

(** Characters are counted, not bytes: of sixty accented letters, two bytes
    each, fifty are kept. *)
Example test_database_probe_error_accented :
  String.length (exn_str accented_error) = 120%nat
  ∧ str_len (exn_str accented_error) = 60%nat
  ∧ response_field "database" (test_database (world_with db_accented) ∅)
    = Some (VStr "⚠️  Connected but Error: éééééééééééééééééééééééééééééééééééééééééééééééééé").
Proof. repeat split; vm_compute; reflexivity. Qed.

(** C8 at a request of two items, one bare and one with image and
    metadata. *)
Lemma checkout_price_data_witness :
  truthy_opt_str (getenv env_live "STRIPE_SECRET_KEY") = true
  ∧ import_stripe world_accepting = inr stripe_accepting
  ∧ ∃ args : SessionArgs,
      calls (snd (create_checkout_session world_accepting env_live
                    request_two stripe_idle))
      = calls stripe_idle ++ [args]
      ∧ Forall2 (line_item_carries (CheckoutRequest.currency request_two))
          (CheckoutRequest.items request_two) (line_items args).
Proof.
  split; [vm_compute; reflexivity|]. split; [reflexivity|].
  apply (checkout_price_data world_accepting env_live request_two
           stripe_idle stripe_accepting).
  - vm_compute; reflexivity.
  - reflexivity.
Defined.

(** An item whose image and metadata are present but empty is sent without
    [images] and without [metadata]. *)
Lemma checkout_price_data_counterexample :
  CheckoutItem.image item_blank = Some ""
  ∧ CheckoutItem.metadata item_blank = Some []
  ∧ line_items <$>
      calls (snd (create_checkout_session world_accepting env_live
                    request_blank stripe_idle))
    = [[VDict
          [ ("price_data",
             VDict [ ("currency", VStr "usd");
                     ("product_data", VDict [("name", VStr "Sticker")]);
                     ("unit_amount", VInt 150) ]);
            ("quantity", VInt 4) ]]]
  ∧ lookup_path ["price_data"; "product_data"; "images"]
      (VDict
         [ ("price_data",
            VDict [ ("currency", VStr "usd");
                    ("product_data", VDict [("name", VStr "Sticker")]);
                    ("unit_amount", VInt 150) ]);
           ("quantity", VInt 4) ])
    = None
  ∧ lookup_path ["price_data"; "product_data"; "metadata"]
      (VDict
         [ ("price_data",
            VDict [ ("currency", VStr "usd");
                    ("product_data", VDict [("name", VStr "Sticker")]);
                    ("unit_amount", VInt 150) ]);
           ("quantity", VInt 4) ])
    = None.
Proof. repeat split; vm_compute; reflexivity. Qed.

(** C9 at two environments whose [DATABASE_URL] values differ, seen through
    two different databases. *)
Lemma test_database_env_fields_witness :
  truthy_opt_str (getenv env_url_a "DATABASE_URL")
  = truthy_opt_str (getenv env_url_b "DATABASE_URL")
  ∧ truthy_opt_str (getenv env_url_a "DATABASE_NAME")
    = truthy_opt_str (getenv env_url_b "DATABASE_NAME")
  ∧ response_field "database_url"
      (test_database (world_with db_listing) env_url_a)
    = response_field "database_url"
        (test_database (world_with db_failing) env_url_b)
  ∧ response_field "database_name"
      (test_database (world_with db_listing) env_url_a)
    = response_field "database_name"
        (test_database (world_with db_failing) env_url_b)
  ∧ response_field "database_url"
      (test_database (world_with db_listing) env_url_a)
    = Some (VStr (if truthy_opt_str (getenv env_url_a "DATABASE_URL")
                  then "✅ Set" else "❌ Not Set"))
  ∧ response_field "database_name"
      (test_database (world_with db_listing) env_url_a)
    = Some (VStr (if truthy_opt_str (getenv env_url_a "DATABASE_NAME")
                  then "✅ Set" else "❌ Not Set")).
Proof.
  split; [vm_compute; reflexivity|]. split; [vm_compute; reflexivity|].
  apply (test_database_env_fields (world_with db_listing)
           (world_with db_failing) env_url_a env_url_b);
    vm_compute; reflexivity.
Defined.

(** [DATABASE_URL] is set in both environments, to the empty string in one,
    and the [database_url] field tells them apart. *)
Lemma test_database_env_fields_counterexample :
  is_set env_url_blank "DATABASE_URL" = is_set env_url_a "DATABASE_URL"
  ∧ is_set env_url_blank "DATABASE_NAME" = is_set env_url_a "DATABASE_NAME"
  ∧ response_field "database_url" (test_database world_accepting env_url_blank)
    = Some (VStr "❌ Not Set")
  ∧ response_field "database_url" (test_database world_accepting env_url_a)
    = Some (VStr "✅ Set")
  ∧ response_field "database_url" (test_database world_accepting env_url_blank)
    ≠ response_field "database_url" (test_database world_accepting env_url_a).
Proof.
  repeat split; try (vm_compute; reflexivity).
  vm_compute. discriminate.
Qed.

(** C10 at an environment whose key is the empty string. *)
Lemma checkout_empty_key_witness :
  getenv env_empty_key "STRIPE_SECRET_KEY" = Some ""
  ∧ create_checkout_session world_accepting env_empty_key request_two
      stripe_idle
    = create_checkout_session world_accepting
        (delete "STRIPE_SECRET_KEY" env_empty_key) request_two stripe_idle
  ∧ create_checkout_session world_accepting env_empty_key request_two
      stripe_idle
    = (inl (mkHTTPException 400
              "Stripe is not configured. Please set STRIPE_SECRET_KEY in the backend environment."),
       stripe_idle).
Proof.
  split; [vm_compute; reflexivity|].
  apply (checkout_empty_key world_accepting env_empty_key request_two
           stripe_idle).
  vm_compute; reflexivity.
Defined.

(** * Further properties *)

(** ** GET /test, branch by branch *)

(** X1.  Whatever happens, the mapping [test_database] returns has the six
    keys of the initial literal, in that order: no branch adds or drops one. *)
Theorem test_database_keys (w : World) (env : environ) :
  ∃ d : dict,
    test_database w env = inr (VDict d)
    ∧ dict_keys d
      = ["backend"; "database"; "database_url"; "database_name";
         "connection_status"; "collections"].
Proof.
  world_cases w; run_test_database; eexists; split; reflexivity.
Qed.

(** X2.  When the import of the database module raises an [ImportError], the
    report is the fixed module-not-found message, without any of the error's
    text; nothing is connected and no collection is listed. *)
Theorem test_database_module_missing (w : World) (env : environ) (e : Exn)
    (Himp : import_database w = inl e)
    (Hcls : is_ImportError e = true) :
  response_field "database" (test_database w env)
  = Some (VStr "❌ Database module not found (run enable-database first)")
  ∧ response_field "connection_status" (test_database w env)
    = Some (VStr "Not Connected")
  ∧ response_field "collections" (test_database w env) = Some (VList []).
Proof.
  destruct w as [idb istripe]. simpl in Himp. subst idb.
  run_test_database; try discriminate; repeat split.
Qed.

(** X3.  When the import raises anything that is not an [ImportError], the
    report is ["❌ Error: "] followed by [str(e)[:50]]: the first 50
    characters of the error's text, all of it when it has no more, cut where
    a character ends; nothing is connected and no collection is listed. *)
Theorem test_database_import_error (w : World) (env : environ) (e : Exn)
    (Himp : import_database w = inl e)
    (Hcls : is_ImportError e = false) :
  response_field "database" (test_database w env)
  = Some (VStr ("❌ Error: " +:+ str_take 50 (exn_str e)))
  ∧ str_len (str_take 50 (exn_str e)) = Nat.min 50 (str_len (exn_str e))
  ∧ String.prefix (str_take 50 (exn_str e)) (exn_str e) = true
  ∧ (∃ rest : string,
       exn_str e = str_take 50 (exn_str e) +:+ rest ∧ starts_character rest)
  ∧ ((str_len (exn_str e) ≤ 50)%nat → str_take 50 (exn_str e) = exn_str e)
  ∧ response_field "connection_status" (test_database w env)
    = Some (VStr "Not Connected")
  ∧ response_field "collections" (test_database w env) = Some (VList []).
Proof.
  rewrite str_take_length, str_take_prefix.
  destruct w as [idb istripe]. simpl in Himp. subst idb.
  split; [|split; [done|split; [done|]]].
  2: split; [apply str_take_rest|split; [apply str_take_all|]].
  all: run_test_database; try discriminate; repeat split.
Qed.

(** X4.  When the module is there but [db] is [None], the report says
    available but not initialized; nothing is connected and no collection is
    listed. *)
Theorem test_database_not_initialized (w : World) (env : environ)
    (Himp : import_database w = inr None) :
  response_field "database" (test_database w env)
  = Some (VStr "⚠️  Available but not initialized")
  ∧ response_field "connection_status" (test_database w env)
    = Some (VStr "Not Connected")
  ∧ response_field "collections" (test_database w env) = Some (VList []).
Proof.
  destruct w as [idb istripe]. simpl in Himp. subst idb.
  run_test_database; repeat split.
Qed.

(** X5.  When the probe returns, the report says connected and working and
    the status is ["Connected"], however many collections there are. *)
Theorem test_database_working (w : World) (env : environ) (db : Database)
    (names : list string)
    (Himp : import_database w = inr (Some db))
    (Hprobe : list_collection_names db = inr names) :
  response_field "database" (test_database w env)
  = Some (VStr "✅ Connected & Working")
  ∧ response_field "connection_status" (test_database w env)
    = Some (VStr "Connected").
Proof.
  destruct w as [idb istripe], db as [nm lcn]. simpl in Himp, Hprobe. subst.
  run_test_database; repeat split.
Qed.

(** X6.  The name of the database never reaches the response: what the
    handler stores from [db.name] is overwritten before it returns, so two
    handles that differ only in their name give the same response.  Nor does
    the response depend on whether [stripe] can be imported. *)
Theorem test_database_ignores_db_name (env : environ) (nm1 nm2 : option pyval)
    (probe : Exn + list string) (s1 s2 : Exn + StripeModule) :
  test_database (mkWorld (inr (Some (mkDatabase nm1 probe))) s1) env
  = test_database (mkWorld (inr (Some (mkDatabase nm2 probe))) s2) env.
Proof.
  destruct probe as [e|names]; run_test_database; reflexivity.
Qed.

(** X7.  A collection is listed only when the probe returned it: if the
    [collections] field is not empty, there is a handle whose probe returned
    a non-empty list. *)
Theorem test_database_collections_only_from_probe (w : World) (env : environ)
    (l : list pyval)
    (Hfield : response_field "collections" (test_database w env)
              = Some (VList l))
    (Hne : l ≠ []) :
  ∃ (db : Database) (names : list string),
    import_database w = inr (Some db)
    ∧ list_collection_names db = inr names
    ∧ names ≠ []
    ∧ l = VStr <$> take 10 names.
Proof.
  revert Hfield. world_cases w; run_test_database; intros [= <-]; try done.
  all: exists (mkDatabase nm (inr names)), names.
  all: split; [reflexivity|]; split; [reflexivity|]; split; [|reflexivity].
  all: intros ->; by apply Hne.
Qed.

(** X9.  The environment shows in [database_url] and [database_name] only:
    every other field of the response is the same in any two
    environments. *)
Theorem test_database_env_elsewhere (w : World) (env1 env2 : environ)
    (k : string)
    (Hurl : k ≠ "database_url")
    (Hname : k ≠ "database_name") :
  response_field k (test_database w env1)
  = response_field k (test_database w env2).
Proof.
  apply String.eqb_neq in Hurl, Hname.
  world_cases w; run_test_database;
    repeat match goal with
           | |- context [String.eqb k ?s] => destruct (String.eqb k s)
           end; congruence.
Qed.

(** ** POST /checkout/create-session, in closed form *)

(** The three ways a request can go: no credential, no client, or one call
    to the provider with [session_args]. *)
Lemma create_checkout_session_eq (w : World) (env : environ)
    (payload : CheckoutRequest.t) (st : Stripe) :
  create_checkout_session w env payload st
  = if truthy_opt_str (getenv env "STRIPE_SECRET_KEY")
    then match import_stripe w with
         | inl e => (inl (mkHTTPException 500 (exn_str e)), st)
         | inr stripe =>
             (match Session_create stripe (calls st)
                      (getenv env "STRIPE_SECRET_KEY")
                      (session_args env payload) with
              | inl e => inl (mkHTTPException 500 (exn_str e))
              | inr session => inr (VDict [("url", VStr (url session))])
              end,
              mkStripe (getenv env "STRIPE_SECRET_KEY")
                (calls st ++ [session_args env payload]))
         end
    else (inl (mkHTTPException 400
                 "Stripe is not configured. Please set STRIPE_SECRET_KEY in the backend environment."),
          st).
Proof.
  destruct (truthy_opt_str (getenv env "STRIPE_SECRET_KEY")) eqn:Hkey.
  - destruct (import_stripe w) as [e|stripe] eqn:Himp.
    + unfold create_checkout_session. rewrite Hkey. simpl.
      unfold try_except, checkout_body, bind, lift. by rewrite Himp.
    + destruct (create_checkout_session_run w env payload st stripe Hkey Himp)
        as (lis & Hlis & Hrun).
      apply built_from_line_item_of in Hlis. subst lis. exact Hrun.
  - unfold create_checkout_session. by rewrite Hkey.
Qed.

(** X10.  The route answers 200, 400, 422 or 500 and nothing else: 422
    exactly when the body fails validation, 400 exactly when the body
    validates and [STRIPE_SECRET_KEY] is unset or empty.  The handler
    itself, on a payload, answers 200, 400 or 500. *)
Theorem checkout_status_codes (P : Pydantic) (w : World) (env : environ)
    (body : pyval) (payload : CheckoutRequest.t) (st : Stripe) :
  let status :=
    fst (fst (post_checkout_create_session P w env body st)) in
  let handled :=
    fst (http_response (fst (create_checkout_session w env payload st))) in
  (status = 200 ∨ status = 400 ∨ status = 422 ∨ status = 500)
  ∧ (status = 422 ↔ validate_CheckoutRequest P body = None)
  ∧ (status = 400
     ↔ is_Some (validate_CheckoutRequest P body)
       ∧ truthy_opt_str (getenv env "STRIPE_SECRET_KEY") = false)
  ∧ (handled = 200 ∨ handled = 400 ∨ handled = 500)
  ∧ (handled = 400 ↔ truthy_opt_str (getenv env "STRIPE_SECRET_KEY") = false).
Proof.
  assert (Hhandler : ∀ p,
    let h := fst (http_response (fst (create_checkout_session w env p st))) in
    (h = 200 ∨ h = 400 ∨ h = 500)
    ∧ (h = 400 ↔ truthy_opt_str (getenv env "STRIPE_SECRET_KEY") = false)).
  { intros p. rewrite create_checkout_session_eq.
    destruct (truthy_opt_str _);
      [destruct (import_stripe w) as [e|stripe];
         [|destruct (Session_create stripe _ _ _)]|].
    all: simpl; split; [auto|split; intros; (discriminate || reflexivity)]. }
  intros status handled. subst status handled.
  split; [|split; [|split; [|apply Hhandler]]].
  all: unfold post_checkout_create_session.
  all: destruct (validate_CheckoutRequest P body) as [p|] eqn:Hv; simpl.
  all: try (destruct (Hhandler p) as [Hcodes Hbad];
            destruct (create_checkout_session w env p st) as [r st'];
            simpl in *).
  - destruct Hcodes as [->| [->| ->]]; auto.
  - auto.
  - split; [|done]. intros H422. destruct Hcodes as [H| [H| H]]; lia.
  - done.
  - rewrite Hbad. split; [by eauto|by intros [_ ?]].
  - split; [discriminate|]. by intros [[? [=]] _].
Qed.

(** X11.  A request makes at most one call to the provider, after the calls
    already made, and that call is always for card payment in one-time
    payment mode. *)
Theorem checkout_at_most_one_call (w : World) (env : environ)
    (payload : CheckoutRequest.t) (st : Stripe) :
  ∃ new : list SessionArgs,
    calls (snd (create_checkout_session w env payload st)) = calls st ++ new
    ∧ (length new ≤ 1)%nat
    ∧ Forall (λ args, payment_method_types args = ["card"]
                      ∧ mode args = "payment") new.
Proof.
  rewrite create_checkout_session_eq.
  destruct (truthy_opt_str _);
    [destruct (import_stripe w) as [e|stripe]|].
  - exists []. simpl. rewrite app_nil_r. split; [done|]. split; [lia|constructor].
  - exists [session_args env payload]. simpl. split; [done|].
    split; [lia|]. by repeat constructor.
  - exists []. simpl. rewrite app_nil_r. split; [done|]. split; [lia|constructor].
Qed.

(** X12.  When the credential is there but [import stripe] raises, the
    request ends in 500 with the import error's text, and the client is left
    as it was: no call, [stripe.api_key] not assigned. *)
Theorem checkout_import_failure (w : World) (env : environ)
    (payload : CheckoutRequest.t) (st : Stripe) (e : Exn)
    (Hkey : truthy_opt_str (getenv env "STRIPE_SECRET_KEY") = true)
    (Himp : import_stripe w = inl e) :
  create_checkout_session w env payload st
  = (inl (mkHTTPException 500 (exn_str e)), st).
Proof.
  rewrite create_checkout_session_eq, Hkey, Himp. done.
Qed.

(** X14.  Once the credential check has passed and the client is imported,
    [stripe.api_key] holds the value of [STRIPE_SECRET_KEY] when the handler
    ends, whether the provider call returned or raised, and the call was made
    under that key. *)
Theorem checkout_sets_api_key (w : World) (env : environ)
    (payload : CheckoutRequest.t) (st : Stripe) (stripe : StripeModule)
    (Hkey : truthy_opt_str (getenv env "STRIPE_SECRET_KEY") = true)
    (Himp : import_stripe w = inr stripe) :
  api_key (snd (create_checkout_session w env payload st))
  = getenv env "STRIPE_SECRET_KEY"
  ∧ ∃ args : SessionArgs,
      calls (snd (create_checkout_session w env payload st))
      = calls st ++ [args]
      ∧ fst (create_checkout_session w env payload st)
        = match Session_create stripe (calls st)
                      (getenv env "STRIPE_SECRET_KEY") args with
          | inl e => inl (mkHTTPException 500 (exn_str e))
          | inr session => inr (VDict [("url", VStr (url session))])
          end.
Proof.
  rewrite create_checkout_session_eq, Hkey, Himp. simpl.
  split; [done|]. by eexists.
Qed.

(** X15.  An empty cart is not refused: with no items the provider is still
    called, once, with an empty [line_items] list. *)
Theorem checkout_empty_cart (w : World) (env : environ)
    (payload : CheckoutRequest.t) (st : Stripe) (stripe : StripeModule)
    (Hkey : truthy_opt_str (getenv env "STRIPE_SECRET_KEY") = true)
    (Himp : import_stripe w = inr stripe)
    (Hitems : CheckoutRequest.items payload = []) :
  ∃ args : SessionArgs,
    calls (snd (create_checkout_session w env payload st)) = calls st ++ [args]
    ∧ line_items args = [].
Proof.
  rewrite create_checkout_session_eq, Hkey, Himp. simpl.
  eexists. split; [done|]. simpl. by rewrite Hitems.
Qed.

(** X16.  The [id] of an item is never used: replacing the ids of a request
    by any others changes neither the response nor what is sent to the
    provider. *)
Theorem checkout_ignores_item_ids (w : World) (env : environ)
    (payload : CheckoutRequest.t) (st : Stripe) (f : string → string) :
  create_checkout_session w env (relabel_ids f payload) st
  = create_checkout_session w env payload st.
Proof.
  rewrite !create_checkout_session_eq.
  assert (session_args env (relabel_ids f payload) = session_args env payload)
    as ->; [|done].
  unfold session_args, relabel_ids. simpl. f_equal.
  rewrite <- list_fmap_compose. apply list_fmap_ext. by intros i [].
Qed.

(** X17.  [FRONTEND_URL] is consulted only for the defaults: when the request
    gives both redirect URLs, non-empty, two environments with the same
    [STRIPE_SECRET_KEY] are handled alike whatever [FRONTEND_URL] is. *)
Theorem checkout_ignores_frontend_url (w : World) (env1 env2 : environ)
    (payload : CheckoutRequest.t) (st : Stripe)
    (Hkey : getenv env1 "STRIPE_SECRET_KEY" = getenv env2 "STRIPE_SECRET_KEY")
    (Hsuccess : truthy_opt_str (CheckoutRequest.success_url payload) = true)
    (Hcancel : truthy_opt_str (CheckoutRequest.cancel_url payload) = true) :
  create_checkout_session w env1 payload st
  = create_checkout_session w env2 payload st.
Proof.
  rewrite !create_checkout_session_eq, Hkey.
  assert (session_args env1 payload = session_args env2 payload) as ->; [|done].
  unfold session_args, py_or.
  destruct (CheckoutRequest.success_url payload) as [[|]|]; try done.
  destruct (CheckoutRequest.cancel_url payload) as [[|]|]; done.
Qed.

(** X18.  Nothing is remembered between requests: the same request handled
    twice makes two calls to the provider, with the same arguments, the
    second with the first on record; each response is what the provider
    answered to its own call. *)
Theorem checkout_twice (w : World) (env : environ)
    (payload : CheckoutRequest.t) (st : Stripe) (stripe : StripeModule)
    (Hkey : truthy_opt_str (getenv env "STRIPE_SECRET_KEY") = true)
    (Himp : import_stripe w = inr stripe) :
  let first := create_checkout_session w env payload st in
  let second := create_checkout_session w env payload (snd first) in
  ∃ args : SessionArgs,
    calls (snd first) = calls st ++ [args]
    ∧ calls (snd second) = calls st ++ [args; args]
    ∧ fst first
      = match Session_create stripe (calls st)
                (getenv env "STRIPE_SECRET_KEY") args with
        | inl e => inl (mkHTTPException 500 (exn_str e))
        | inr session => inr (VDict [("url", VStr (url session))])
        end
    ∧ fst second
      = match Session_create stripe (calls st ++ [args])
                (getenv env "STRIPE_SECRET_KEY") args with
        | inl e => inl (mkHTTPException 500 (exn_str e))
        | inr session => inr (VDict [("url", VStr (url session))])
        end.
Proof.
  intros first second. subst first second.
  rewrite !create_checkout_session_eq, Hkey, Himp. simpl.
  eexists. split; [done|]. split; [by rewrite <- app_assoc|]. by split.
Qed.

(** X19.  Every line item sent has the keys [price_data] and [quantity] and
    no other; [price_data] has [currency], [product_data] and [unit_amount];
    [product_data] has [name], then [images] and [metadata] when they apply,
    and nothing else. *)
Theorem checkout_line_item_shape (w : World) (env : environ)
    (payload : CheckoutRequest.t) (st : Stripe) (stripe : StripeModule)
    (Hkey : truthy_opt_str (getenv env "STRIPE_SECRET_KEY") = true)
    (Himp : import_stripe w = inr stripe) :
  ∃ args : SessionArgs,
    calls (snd (create_checkout_session w env payload st)) = calls st ++ [args]
    ∧ Forall line_item_shape (line_items args).
Proof.
  rewrite create_checkout_session_eq, Hkey, Himp. simpl.
  eexists. split; [done|]. simpl.
  apply Forall_fmap, Forall_forall. intros item _.
  unfold line_item_shape, line_item_of, images_entry, metadata_entry. simpl.
  do 3 eexists. split; [reflexivity|]. split; [reflexivity|].
  split; [reflexivity|].
  destruct (truthy_opt_str (CheckoutItem.image item)),
    (truthy_opt_dict (CheckoutItem.metadata item));
    unfold dict_keys; simpl; rewrite !elem_of_cons; auto 10.
Qed.

(** X20.  A request that gives only its items, with an item that gives only
    [id], [name] and [unit_amount], is sent as one bare line item of quantity
    1 in ["usd"], with both redirect URLs derived from the frontend base. *)
Theorem checkout_defaults (w : World) (env : environ) (st : Stripe)
    (stripe : StripeModule) (id name : string) (unit_amount : Z)
    (Hkey : truthy_opt_str (getenv env "STRIPE_SECRET_KEY") = true)
    (Himp : import_stripe w = inr stripe) :
  calls (snd (create_checkout_session w env
                (new_CheckoutRequest
                   [new_CheckoutItem id name unit_amount None None None]
                   None None None)
                st))
  = calls st
    ++ [mkSessionArgs ["card"] "payment"
          [VDict
             [ ("price_data",
                VDict [ ("currency", VStr "usd");
                        ("product_data", VDict [("name", VStr name)]);
                        ("unit_amount", VInt unit_amount) ]);
               ("quantity", VInt 1) ]]
          (frontend_base env +:+ "/?checkout=success")
          (frontend_base env +:+ "/?checkout=cancelled")].
Proof.
  rewrite create_checkout_session_eq, Hkey, Himp. simpl.
  unfold session_args, getenv_default, frontend_base. simpl.
  by destruct (getenv env "FRONTEND_URL").
Qed.

(** * The further properties at sample inputs *)

(** X2 where the [database] module is not installed. *)
Lemma test_database_module_missing_witness :
  import_database world_accepting = inl no_database
  ∧ is_ImportError no_database = true
  ∧ response_field "database" (test_database world_accepting ∅)
    = Some (VStr "❌ Database module not found (run enable-database first)")
  ∧ response_field "connection_status" (test_database world_accepting ∅)
    = Some (VStr "Not Connected")
  ∧ response_field "collections" (test_database world_accepting ∅)
    = Some (VList []).
Proof.
  split; [reflexivity|]. split; [reflexivity|].
  apply (test_database_module_missing world_accepting ∅ no_database);
    reflexivity.
Defined.

(** X3 where the module raises while it loads. *)
Lemma test_database_import_error_witness :
  import_database world_import_broken = inl import_broken
  ∧ is_ImportError import_broken = false
  ∧ response_field "database" (test_database world_import_broken ∅)
    = Some (VStr ("❌ Error: " +:+ str_take 50 (exn_str import_broken)))
  ∧ str_len (str_take 50 (exn_str import_broken))
    = Nat.min 50 (str_len (exn_str import_broken))
  ∧ String.prefix (str_take 50 (exn_str import_broken))
      (exn_str import_broken) = true
  ∧ (∃ rest : string,
       exn_str import_broken = str_take 50 (exn_str import_broken) +:+ rest
       ∧ starts_character rest)
  ∧ ((str_len (exn_str import_broken) ≤ 50)%nat
     → str_take 50 (exn_str import_broken) = exn_str import_broken)
  ∧ response_field "connection_status" (test_database world_import_broken ∅)
    = Some (VStr "Not Connected")
  ∧ response_field "collections" (test_database world_import_broken ∅)
    = Some (VList []).
Proof.
  split; [reflexivity|]. split; [reflexivity|].
  apply (test_database_import_error world_import_broken ∅ import_broken);
    reflexivity.
Defined.

(** A text of 49 characters in 54 bytes is echoed whole. *)
Example test_database_import_error_whole :
  str_len (exn_str short_accented_error) = 49%nat
  ∧ String.length (exn_str short_accented_error) = 54%nat
  ∧ response_field "database" (test_database world_import_accented ∅)
    = Some (VStr "❌ Error: Délai dépassé: la base de données n'a pas répondu").
Proof. repeat split; vm_compute; reflexivity. Qed.

(** X4 where [db] is [None]. *)
Lemma test_database_not_initialized_witness :
  import_database world_db_none = inr None
  ∧ response_field "database" (test_database world_db_none ∅)
    = Some (VStr "⚠️  Available but not initialized")
  ∧ response_field "connection_status" (test_database world_db_none ∅)
    = Some (VStr "Not Connected")
  ∧ response_field "collections" (test_database world_db_none ∅)
    = Some (VList []).
Proof.
  split; [reflexivity|].
  apply (test_database_not_initialized world_db_none ∅). reflexivity.
Defined.

(** X5 at the database with twelve collections. *)
Lemma test_database_working_witness :
  import_database (world_with db_listing) = inr (Some db_listing)
  ∧ list_collection_names db_listing = inr names_12
  ∧ response_field "database" (test_database (world_with db_listing) ∅)
    = Some (VStr "✅ Connected & Working")
  ∧ response_field "connection_status"
      (test_database (world_with db_listing) ∅)
    = Some (VStr "Connected").
Proof.
  split; [reflexivity|]. split; [reflexivity|].
  apply (test_database_working (world_with db_listing) ∅ db_listing names_12);
    reflexivity.
Defined.

(** X7 at the database with twelve collections. *)
Lemma test_database_collections_only_from_probe_witness :
  response_field "collections" (test_database (world_with db_listing) ∅)
  = Some (VList (VStr <$> take 10 names_12))
  ∧ VStr <$> take 10 names_12 ≠ []
  ∧ ∃ (db : Database) (names : list string),
      import_database (world_with db_listing) = inr (Some db)
      ∧ list_collection_names db = inr names
      ∧ names ≠ []
      ∧ VStr <$> take 10 names_12 = VStr <$> take 10 names.
Proof.
  split; [vm_compute; reflexivity|]. split; [vm_compute; discriminate|].
  apply (test_database_collections_only_from_probe (world_with db_listing) ∅
           (VStr <$> take 10 names_12)).
  - vm_compute; reflexivity.
  - vm_compute; discriminate.
Defined.

(** X9 at the [database] field, with [DATABASE_URL] set and blank. *)
Lemma test_database_env_elsewhere_witness :
  "database" ≠ "database_url"
  ∧ "database" ≠ "database_name"
  ∧ response_field "database" (test_database (world_with db_failing) env_url_a)
    = response_field "database"
        (test_database (world_with db_failing) env_url_blank).
Proof.
  split; [discriminate|]. split; [discriminate|].
  apply (test_database_env_elsewhere (world_with db_failing) env_url_a
           env_url_blank "database"); discriminate.
Defined.

(** X12 where the [stripe] package is not installed. *)
Lemma checkout_import_failure_witness :
  truthy_opt_str (getenv env_live "STRIPE_SECRET_KEY") = true
  ∧ import_stripe world_no_stripe = inl no_stripe
  ∧ create_checkout_session world_no_stripe env_live request_two stripe_stale
    = (inl (mkHTTPException 500 (exn_str no_stripe)), stripe_stale).
Proof.
  split; [vm_compute; reflexivity|]. split; [reflexivity|].
  apply (checkout_import_failure world_no_stripe env_live request_two
           stripe_stale no_stripe).
  - vm_compute; reflexivity.
  - reflexivity.
Defined.

(** X14 at a client that still holds an older key. *)
Lemma checkout_sets_api_key_witness :
  truthy_opt_str (getenv env_live "STRIPE_SECRET_KEY") = true
  ∧ import_stripe world_rejecting = inr stripe_rejecting
  ∧ api_key (snd (create_checkout_session world_rejecting env_live
                    request_two stripe_stale))
    = getenv env_live "STRIPE_SECRET_KEY"
  ∧ ∃ args : SessionArgs,
      calls (snd (create_checkout_session world_rejecting env_live
                    request_two stripe_stale))
      = calls stripe_stale ++ [args]
      ∧ fst (create_checkout_session world_rejecting env_live request_two
               stripe_stale)
        = match Session_create stripe_rejecting (calls stripe_stale)
                  (getenv env_live "STRIPE_SECRET_KEY") args with
          | inl e => inl (mkHTTPException 500 (exn_str e))
          | inr session => inr (VDict [("url", VStr (url session))])
          end.
Proof.
  split; [vm_compute; reflexivity|]. split; [reflexivity|].
  apply (checkout_sets_api_key world_rejecting env_live request_two
           stripe_stale stripe_rejecting).
  - vm_compute; reflexivity.
  - reflexivity.
Defined.

(** X15 at the request with no items. *)
Lemma checkout_empty_cart_witness :
  truthy_opt_str (getenv env_live "STRIPE_SECRET_KEY") = true
  ∧ import_stripe world_accepting = inr stripe_accepting
  ∧ CheckoutRequest.items request_empty = []
  ∧ ∃ args : SessionArgs,
      calls (snd (create_checkout_session world_accepting env_live
                    request_empty stripe_idle))
      = calls stripe_idle ++ [args]
      ∧ line_items args = [].
Proof.
  split; [vm_compute; reflexivity|]. split; [reflexivity|].
  split; [reflexivity|].
  apply (checkout_empty_cart world_accepting env_live request_empty
           stripe_idle stripe_accepting).
  - vm_compute; reflexivity.
  - reflexivity.
  - reflexivity.
Defined.

(** X17 at two frontends and a request that names both URLs. *)
Lemma checkout_ignores_frontend_url_witness :
  getenv env_front_a "STRIPE_SECRET_KEY" = getenv env_front_b "STRIPE_SECRET_KEY"
  ∧ truthy_opt_str (CheckoutRequest.success_url request_both_urls) = true
  ∧ truthy_opt_str (CheckoutRequest.cancel_url request_both_urls) = true
  ∧ create_checkout_session world_accepting env_front_a request_both_urls
      stripe_idle
    = create_checkout_session world_accepting env_front_b request_both_urls
        stripe_idle.
Proof.
  split; [vm_compute; reflexivity|]. split; [reflexivity|].
  split; [reflexivity|].
  apply (checkout_ignores_frontend_url world_accepting env_front_a env_front_b
           request_both_urls stripe_idle).
  - vm_compute; reflexivity.
  - reflexivity.
  - reflexivity.
Defined.

(** X18 at a provider that opens a new session at every call. *)
Lemma checkout_twice_witness :
  truthy_opt_str (getenv env_live "STRIPE_SECRET_KEY") = true
  ∧ import_stripe world_fresh = inr stripe_fresh
  ∧ let first :=
      create_checkout_session world_fresh env_live request_two stripe_idle in
    let second :=
      create_checkout_session world_fresh env_live request_two (snd first) in
    ∃ args : SessionArgs,
      calls (snd first) = calls stripe_idle ++ [args]
      ∧ calls (snd second) = calls stripe_idle ++ [args; args]
      ∧ fst first
        = match Session_create stripe_fresh (calls stripe_idle)
                  (getenv env_live "STRIPE_SECRET_KEY") args with
          | inl e => inl (mkHTTPException 500 (exn_str e))
          | inr session => inr (VDict [("url", VStr (url session))])
          end
      ∧ fst second
        = match Session_create stripe_fresh (calls stripe_idle ++ [args])
                  (getenv env_live "STRIPE_SECRET_KEY") args with
          | inl e => inl (mkHTTPException 500 (exn_str e))
          | inr session => inr (VDict [("url", VStr (url session))])
          end.
Proof.
  split; [vm_compute; reflexivity|]. split; [reflexivity|].
  apply (checkout_twice world_fresh env_live request_two stripe_idle
           stripe_fresh).
  - vm_compute; reflexivity.
  - reflexivity.
Defined.

(** There the two responses carry different session URLs. *)
Example checkout_twice_fresh_sessions :
  fst (create_checkout_session world_fresh env_live request_two stripe_idle)
  = inr (VDict [("url", VStr "https://checkout.example/c/pay/cs_test_1")])
  ∧ fst (create_checkout_session world_fresh env_live request_two
           (snd (create_checkout_session world_fresh env_live request_two
                   stripe_idle)))
    = inr (VDict [("url", VStr "https://checkout.example/c/pay/cs_test_2")]).
Proof. split; vm_compute; reflexivity. Qed.

(** X19 at the request of two items. *)
Lemma checkout_line_item_shape_witness :
  truthy_opt_str (getenv env_live "STRIPE_SECRET_KEY") = true
  ∧ import_stripe world_accepting = inr stripe_accepting
  ∧ ∃ args : SessionArgs,
      calls (snd (create_checkout_session world_accepting env_live
                    request_two stripe_idle))
      = calls stripe_idle ++ [args]
      ∧ Forall line_item_shape (line_items args).
Proof.
  split; [vm_compute; reflexivity|]. split; [reflexivity|].
  apply (checkout_line_item_shape world_accepting env_live request_two
           stripe_idle stripe_accepting).
  - vm_compute; reflexivity.
  - reflexivity.
Defined.

(** X20 at a widget given by its id, name and price alone. *)
Lemma checkout_defaults_witness :
  truthy_opt_str (getenv env_live "STRIPE_SECRET_KEY") = true
  ∧ import_stripe world_accepting = inr stripe_accepting
  ∧ calls (snd (create_checkout_session world_accepting env_live
                  (new_CheckoutRequest
                     [new_CheckoutItem "1" "Widget" 500 None None None]
                     None None None)
                  stripe_idle))
    = calls stripe_idle
      ++ [mkSessionArgs ["card"] "payment"
            [VDict
               [ ("price_data",
                  VDict [ ("currency", VStr "usd");
                          ("product_data", VDict [("name", VStr "Widget")]);
                          ("unit_amount", VInt 500) ]);
                 ("quantity", VInt 1) ]]
            (frontend_base env_live +:+ "/?checkout=success")
            (frontend_base env_live +:+ "/?checkout=cancelled")].
Proof.
  split; [vm_compute; reflexivity|]. split; [reflexivity|].
  apply (checkout_defaults world_accepting env_live stripe_idle
           stripe_accepting "1" "Widget" 500).
  - vm_compute; reflexivity.
  - reflexivity.
Defined.
